(** * Medication dose-schedule projection: a shallow embedding

    The development embeds the schedule projector of the medication tracker
    ([getMedicationSchedule] in [MedicationTimeline/MedicationCard.tsx]) and
    its two earlier copies, and proves the properties of the projector that
    the repository's specification states.

    Modelling conventions.
    - A JavaScript [number] is an integer of [Z]: the fields the projector
      reads (frequency, period, duration, day offsets) are whole numbers in
      the data the extraction service is asked to produce.  Arithmetic on
      them is exact; the one division that is not whole
      ([12 / (frequency - 1)] and [i * 7 / freq]) is kept as an exact
      fraction until it is rounded.
    - An optional field [f?: T] is [option T]; [x || d] is written out with
      JavaScript's notion of a falsy value ([undefined], [0], the empty
      string).
    - A [Date] is its number of milliseconds since the epoch, read in a
      local time zone without offset (UTC), so that a day is 86 400 000 ms
      and days start at multiples of it.
    - The [for ... of] loop over the timing sequence threads
      [runningOffsetDays]; its body either [continue]s with a new offset or
      [return]s. *)

From Stdlib Require Import ZArith List Bool Lia.
From Stdlib Require Import Strings.String Strings.Ascii.
From Stdlib Require Import Numbers.DecimalString.
From Stdlib Require Import Sorting.Sorted.
Import ListNotations.

Open Scope string_scope.
Open Scope list_scope.
Open Scope Z_scope.

(** ** JavaScript primitives used by the projector *)

Module JS.

(** [x || d] on an optional number: [undefined] and [0] are falsy. *)
Definition orZ (x : option Z) (d : Z) : Z :=
  match x with
  | Some n => if n =? 0 then d else n
  | None => d
  end.

(** Truthiness of an optional number. *)
Definition truthyZ (x : option Z) : bool :=
  match x with
  | Some n => negb (n =? 0)
  | None => false
  end.

(** [x || d] on an optional string: [undefined] and [""] are falsy. *)
Definition orString (x : option string) (d : string) : string :=
  match x with
  | Some EmptyString => d
  | Some s => s
  | None => d
  end.

(** [xs && xs.length > 0] on an optional array. *)
Definition nonEmpty {A : Type} (x : option (list A)) : option (list A) :=
  match x with
  | Some (a :: l) => Some (a :: l)
  | _ => None
  end.

Definition lowerAscii (c : ascii) : ascii :=
  let n := nat_of_ascii c in
  if (Nat.leb 65 n && Nat.leb n 90)%bool then ascii_of_nat (n + 32) else c.

(** [String.prototype.toLowerCase], on ASCII text. *)
Fixpoint toLowerCase (s : string) : string :=
  match s with
  | EmptyString => EmptyString
  | String c s' => String (lowerAscii c) (toLowerCase s')
  end.

(** [s.startsWith(p)]. *)
Definition startsWith (s p : string) : bool := String.prefix p s.

(** [s.includes(sub)]. *)
Fixpoint includes (s sub : string) : bool :=
  if String.prefix sub s then true
  else match s with
       | EmptyString => false
       | String _ s' => includes s' sub
       end.

(** [xs.includes(x)] on an array of strings. *)
Definition arrayIncludes (xs : list string) (x : string) : bool :=
  existsb (String.eqb x) xs.

(** [String(n)] for an integer. *)
Definition stringOfNumber (n : Z) : string :=
  NilEmpty.string_of_int (Z.to_int n).

Fixpoint repeatString (fill : string) (n : nat) : string :=
  match n with
  | O => EmptyString
  | S n' => (fill ++ repeatString fill n')%string
  end.

(** [s.padStart(len, fill)] for a one-character [fill]. *)
Definition padStart (s : string) (len : nat) (fill : string) : string :=
  (repeatString fill (len - String.length s) ++ s)%string.

(** [Math.round (num / den)] for [0 < den]: the nearest integer, a half
    going up. *)
Definition roundDiv (num den : Z) : Z := (2 * num + den) / (2 * den).

(** [a % b] is the truncating remainder. *)
Definition remainder (a b : Z) : Z := Z.rem a b.

End JS.

(** ** Dates *)

Definition Date := Z.

Definition msPerDay : Z := 1000 * 60 * 60 * 24.

Definition getTime (d : Date) : Z := d.

(** [d.setHours(0, 0, 0, 0)]. *)
Definition setHoursZero (d : Date) : Date := (d / msPerDay) * msPerDay.

(** [d.getDay()]: 0 is Sunday; the epoch was a Thursday. *)
Definition getDay (d : Date) : Z := (d / msPerDay + 4) mod 7.

(** ** Data model ([MedicationTimeline/types.ts]) *)

Record Strength := {
  amount : Z;
  unit : string
}.

Record Timing := {
  orderInSequence : option Z;
  doseAmount : Z;
  doseUnit : option string;
  frequency : option Z;
  frequencyMax : option Z;
  period : option Z;
  periodMax : option Z;
  periodUnit : option string;
  duration : option Z;
  durationUnit : option string;
  count : option Z;
  isAsNeeded : bool;
  specificTimes : option (list string);
  timeCategories : option (list string);
  weekdays : option (list string);
  rawText : option string
}.

Record MedicationStatement := {
  medication : string;
  brandName : option string;
  genericName : option string;
  rxnormCode : string;
  form : option string;
  timingSequence : list Timing;
  strength : Strength;
  sourceText : string
}.

Inductive Source := explicit | calculated.

Record MedicationSchedule := {
  asNeeded : option bool;
  max : option Z;
  times : option (list string);
  schedDoseAmount : Z;
  schedDoseUnit : option string;
  source : option Source;
  explicitWeekdays : option (list string);
  schedTimeCategories : option (list string)
}.

(** ** The projector ([MedicationCard.tsx], [getMedicationSchedule]) *)

(** The loop [for (let i = 0; i < frequency; i++)] of [timesForFrequency]:
    the hour of dose [i] is [Math.round(startHour + step * i)] with
    [step = span / (frequency - 1)]. *)
Definition spreadHour (frequency i : Z) : Z :=
  let startHour := 8 in
  let endHour := 20 in
  let span := endHour - startHour in
  JS.roundDiv (startHour * (frequency - 1) + span * i) (frequency - 1).

Definition clockOfHour (h : Z) : string :=
  let hh := JS.padStart (JS.stringOfNumber h) 2 "0" in
  (hh ++ ":00")%string.

Definition timesForFrequency (frequency : Z) : list string :=
  if frequency <=? 0 then []
  else if frequency =? 1 then ["08:00"]
  else if frequency =? 2 then ["08:00"; "20:00"]
  else if frequency =? 3 then ["08:00"; "14:00"; "20:00"]
  else if frequency =? 4 then ["08:00"; "12:00"; "16:00"; "20:00"]
  else map (fun i => clockOfHour (spreadHour frequency (Z.of_nat i)))
           (seq 0 (Z.to_nat frequency)).

Definition weekdayNames : list string :=
  ["sunday"; "monday"; "tuesday"; "wednesday"; "thursday"; "friday";
   "saturday"].

(** [lowered.includes(weekdayNames[date.getDay()])]. *)
Definition weekdayMatches (targetWeekday : Z) (wds : list string) : bool :=
  let lowered := map JS.toLowerCase wds in
  if targetWeekday <? 0 then false
  else match nth_error weekdayNames (Z.to_nat targetWeekday) with
       | Some wdName => JS.arrayIncludes lowered wdName
       | None => false
       end.

Definition categoryToTime (cat : string) : option string :=
  let c := JS.toLowerCase cat in
  if JS.includes c "morn" then Some "08:00"
  else if (JS.includes c "noon" || JS.includes c "afternoon")%bool
       then Some "14:00"
  else if (JS.includes c "even" || JS.includes c "night")%bool
       then Some "20:00"
  else if (JS.includes c "bed" || JS.includes c "bedtime")%bool
       then Some "22:00"
  else None.

(** [xs.map(categoryToTime).filter(t => !!t)]. *)
Fixpoint mapCategories (cats : list string) : list string :=
  match cats with
  | [] => []
  | c :: cs => match categoryToTime c with
               | Some t => t :: mapCategories cs
               | None => mapCategories cs
               end
  end.

(** The "every N days" test, written three times in the source:
    [offsetDayIndex < 0] or [offsetDayIndex % everyN !== 0] gives [null]. *)
Definition firesOnDay (daysDiff runningOffsetDays period : Z) : bool :=
  let offsetDayIndex := daysDiff - runningOffsetDays in
  if offsetDayIndex <? 0 then false
  else
    let everyN := Z.max 1 period in
    JS.remainder offsetDayIndex everyN =? 0.

(** The "every N weeks" test, written three times in the source. *)
Definition firesInWeek (daysDiff runningOffsetDays period : Z) : bool :=
  let daysSinceOffset := daysDiff - runningOffsetDays in
  if daysSinceOffset <? 0 then false
  else
    let weekIndex := daysSinceOffset / 7 in
    let everyNWeeks := Z.max 1 period in
    JS.remainder weekIndex everyNWeeks =? 0.

(** The weekdays of a weekly regimen: the loop that fills [chosenWeekdays]. *)
Definition chosenWeekdays (baseWeekday freq : Z) : list Z :=
  map (fun i => let approx := JS.roundDiv (Z.of_nat i * 7) freq in
                JS.remainder (baseWeekday + approx) 7)
      (seq 0 (Z.to_nat freq)).

Definition setHas (s : list Z) (x : Z) : bool := existsb (Z.eqb x) s.

(** What one iteration of the loop over the timing sequence does. *)
Inductive Step :=
| Continue (runningOffsetDays : Z)
| Return (result : option MedicationSchedule).

Definition asNeededSchedule (timing : Timing) : MedicationSchedule :=
  let freq := JS.orZ (frequency timing) 1 in
  {| asNeeded := Some true;
     max := Some (JS.orZ (frequencyMax timing) freq);
     times := None;
     schedDoseAmount := doseAmount timing;
     schedDoseUnit := doseUnit timing;
     source := None;
     explicitWeekdays := None;
     schedTimeCategories := None |}.

Definition timedSchedule (ts : list string) (src : Source)
    (wds cats : option (list string)) (timing : Timing) : MedicationSchedule :=
  {| asNeeded := None;
     max := None;
     times := Some ts;
     schedDoseAmount := doseAmount timing;
     schedDoseUnit := doseUnit timing;
     source := Some src;
     explicitWeekdays := wds;
     schedTimeCategories := cats |}.

(** [const period = timing.period || 1]. *)
Definition periodOf (timing : Timing) : Z := JS.orZ (period timing) 1.

(** [const periodUnit = (timing.periodUnit || 'day').toLowerCase()]. *)
Definition periodUnitOf (timing : Timing) : string :=
  JS.toLowerCase (JS.orString (periodUnit timing) "day").

(** The times of the categories, when [timeCategories] is present and not
    empty; no time when it is not. *)
Definition mappedCategories (timing : Timing) : list string :=
  match JS.nonEmpty (timeCategories timing) with
  | Some cats => mapCategories cats
  | None => []
  end.

(** The branch taken for explicit times ([specificTimes]); [withCats] tells
    whether the final fallback keeps [timeCategories] (the branch for mapped
    categories does, the branch for specific times does not). *)
Definition explicitOccurrence (daysDiff targetWeekday runningOffsetDays : Z)
    (timing : Timing) (ts : list string) (withCats : bool)
  : option MedicationSchedule :=
  match JS.nonEmpty (weekdays timing) with
  | Some wds =>
      if negb (weekdayMatches targetWeekday wds) then None
      else Some (timedSchedule ts explicit (weekdays timing)
                               (timeCategories timing) timing)
  | None =>
      let period := periodOf timing in
      let periodUnit := periodUnitOf timing in
      if JS.startsWith periodUnit "day" then
        if firesOnDay daysDiff runningOffsetDays period
        then Some (timedSchedule ts explicit None (timeCategories timing) timing)
        else None
      else if JS.startsWith periodUnit "week" then
        if firesInWeek daysDiff runningOffsetDays period
        then Some (timedSchedule ts explicit None (timeCategories timing) timing)
        else None
      else
        Some (timedSchedule ts explicit None
                (if withCats then timeCategories timing else None) timing)
  end.

(** The branch "Otherwise use frequency/period logic (calculated)". *)
Definition calculatedOccurrence
    (daysDiff baseWeekday targetWeekday runningOffsetDays : Z)
    (timing : Timing) : option MedicationSchedule :=
  let frequency := Z.max 0 (JS.orZ (frequency timing) 0) in
  let period := periodOf timing in
  let periodUnit := periodUnitOf timing in
  if JS.startsWith periodUnit "day" then
    if firesOnDay daysDiff runningOffsetDays period then
      let times := timesForFrequency (JS.orZ (Some frequency) 1) in
      Some (timedSchedule times calculated None None timing)
    else None
  else if JS.startsWith periodUnit "week" then
    if firesInWeek daysDiff runningOffsetDays period then
      let freq := Z.min 7 (Z.max 1 (JS.orZ (Some frequency) 1)) in
      if negb (setHas (chosenWeekdays baseWeekday freq) targetWeekday)
      then None
      else Some (timedSchedule (timesForFrequency freq) calculated
                               None None timing)
    else None
  else
    let times := timesForFrequency (JS.orZ (Some frequency) 1) in
    Some (timedSchedule times calculated None None timing).

(** The schedule computed from a timing whose window holds the date. *)
Definition occurrence
    (daysDiff baseWeekday targetWeekday runningOffsetDays : Z)
    (timing : Timing) : option MedicationSchedule :=
  if isAsNeeded timing then Some (asNeededSchedule timing)
  else
    match JS.nonEmpty (specificTimes timing) with
    | Some ts =>
        explicitOccurrence daysDiff targetWeekday runningOffsetDays
                           timing ts false
    | None =>
        let mapped := mappedCategories timing in
        match mapped with
        | _ :: _ =>
            explicitOccurrence daysDiff targetWeekday runningOffsetDays
                               timing mapped true
        | [] =>
            calculatedOccurrence daysDiff baseWeekday targetWeekday
                                 runningOffsetDays timing
        end
    end.

(** [const durationDays = timing.duration || 0]. *)
Definition durationDays (timing : Timing) : Z := JS.orZ (duration timing) 0.

(** The body of the loop. *)
Definition phaseStep
    (daysDiff baseWeekday targetWeekday runningOffsetDays : Z)
    (timing : Timing) : Step :=
  if 0 <? durationDays timing then
    let windowStart := runningOffsetDays in
    let windowEnd := runningOffsetDays + durationDays timing in
    if ((daysDiff <? windowStart) || (windowEnd <=? daysDiff))%bool
    then Continue (runningOffsetDays + durationDays timing)
    else Return (occurrence daysDiff baseWeekday targetWeekday
                            runningOffsetDays timing)
  else
    if daysDiff <? runningOffsetDays
    then Continue (runningOffsetDays + durationDays timing)
    else Return (occurrence daysDiff baseWeekday targetWeekday
                            runningOffsetDays timing).

(** The loop; falling out of it returns [null]. *)
Fixpoint scheduleLoop
    (daysDiff baseWeekday targetWeekday runningOffsetDays : Z)
    (timings : list Timing) : option MedicationSchedule :=
  match timings with
  | [] => None
  | timing :: rest =>
      match phaseStep daysDiff baseWeekday targetWeekday
                      runningOffsetDays timing with
      | Continue r => scheduleLoop daysDiff baseWeekday targetWeekday r rest
      | Return res => res
      end
  end.

Definition daysBetween (startDate date : Date) : Z :=
  (getTime date - getTime startDate) / msPerDay.

Definition getMedicationSchedule (currentDate : Date)
    (med : MedicationStatement) (date : Date) : option MedicationSchedule :=
  let startDate := setHoursZero currentDate in
  let daysDiff := daysBetween startDate date in
  scheduleLoop daysDiff (getDay startDate) (getDay date) 0
               (timingSequence med).

(** ** The two earlier copies of the projector

    Both work on the earlier data model, in which a timing has no dose, no
    explicit times and no weekdays, and a schedule is as-needed or a list of
    times.  They differ in the comparison that decides whether a bounded
    timing is passed over, and in what a timing without duration gives. *)

Module Legacy.

Record Timing := {
  orderInSequence : option Z;
  frequency : option Z;
  frequencyMax : option Z;
  period : option Z;
  periodMax : option Z;
  periodUnit : option string;
  duration : option Z;
  durationUnit : option string;
  count : option Z;
  isAsNeeded : bool;
  rawText : option string
}.

Record MedicationStatement := {
  medication : string;
  brandName : option string;
  genericName : option string;
  rxnormCode : string;
  form : option string;
  timingSequence : list Timing;
  strength : Strength;
  sourceText : string
}.

Record MedicationSchedule := {
  asNeeded : option bool;
  max : option Z;
  times : option (list string)
}.

(** The loop threads [durationSoFar] and the array [times], to which the
    iterations push. *)
Inductive Step :=
| Continue (durationSoFar : Z) (times : list string)
| Return (result : option MedicationSchedule).

(** The chain [if (frequency === 1) times.push(...) else if ...]. *)
Definition pushTimes (frequency : Z) (times : list string) : list string :=
  if frequency =? 1 then times ++ ["08:00"]
  else if frequency =? 2 then times ++ ["08:00"; "20:00"]
  else if frequency =? 3 then times ++ ["08:00"; "14:00"; "20:00"]
  else if frequency =? 4 then times ++ ["08:00"; "12:00"; "16:00"; "20:00"]
  else times.

Definition asNeededSchedule (timing : Timing) (frequency : Z)
  : MedicationSchedule :=
  {| asNeeded := Some true;
     max := Some (JS.orZ (frequencyMax timing) frequency);
     times := None |}.

Definition timesSchedule (times : list string) : MedicationSchedule :=
  {| asNeeded := None; max := None; times := Some times |}.

(** The copy in [MedicationCard.tsx], whose boundary test is
    [daysDiff <= timing.duration + durationSoFar]. *)
Module Inclusive.

Definition loopBody (daysDiff durationSoFar : Z) (times : list string)
    (timing : Timing) : Step :=
  let d := JS.orZ (duration timing) 0 in
  if (JS.truthyZ (duration timing) && (daysDiff <=? d + durationSoFar))%bool
  then Continue (durationSoFar + d) times
  else if negb (JS.truthyZ (duration timing))
  then Return (Some (timesSchedule (times ++ ["08:00"])))
  else
    let frequency := JS.orZ (frequency timing) 1 in
    if isAsNeeded timing
    then Return (Some (asNeededSchedule timing frequency))
    else Continue durationSoFar (pushTimes frequency times).

Fixpoint loop (daysDiff durationSoFar : Z) (times : list string)
    (timings : list Timing) : option MedicationSchedule :=
  match timings with
  | [] => Some (timesSchedule times)
  | timing :: rest =>
      match loopBody daysDiff durationSoFar times timing with
      | Continue dsf ts => loop daysDiff dsf ts rest
      | Return res => res
      end
  end.

Definition getMedicationSchedule (currentDate : Date)
    (med : MedicationStatement) (date : Date)
  : option MedicationSchedule :=
  let startDate := setHoursZero currentDate in
  let daysDiff := (getTime date - getTime startDate) / msPerDay in
  loop daysDiff 0 [] (timingSequence med).

End Inclusive.

(** The copy whose boundary test is
    [daysDiff >= timing.duration + durationSoFar]. *)
Module Exclusive.

Definition loopBody (daysDiff durationSoFar : Z) (times : list string)
    (timing : Timing) : Step :=
  let d := JS.orZ (duration timing) 0 in
  if (JS.truthyZ (duration timing) && (d + durationSoFar <=? daysDiff))%bool
  then Continue (durationSoFar + d) times
  else if negb (JS.truthyZ (duration timing))
  then Return None
  else
    let frequency := JS.orZ (frequency timing) 1 in
    if isAsNeeded timing
    then Return (Some (asNeededSchedule timing frequency))
    else Continue durationSoFar (pushTimes frequency times).

Fixpoint loop (daysDiff durationSoFar : Z) (times : list string)
    (timings : list Timing) : option MedicationSchedule :=
  match timings with
  | [] => Some (timesSchedule times)
  | timing :: rest =>
      match loopBody daysDiff durationSoFar times timing with
      | Continue dsf ts => loop daysDiff dsf ts rest
      | Return res => res
      end
  end.

Definition getMedicationSchedule (currentDate : Date)
    (med : MedicationStatement) (date : Date)
  : option MedicationSchedule :=
  let startDate := setHoursZero currentDate in
  let daysDiff := (getTime date - getTime startDate) / msPerDay in
  loop daysDiff 0 [] (timingSequence med).

End Exclusive.

(** A scheduled course of [freq] doses a day for [dur] days. *)
Definition courseOf (freq dur : Z) : Timing :=
  {| orderInSequence := None;
     frequency := Some freq;
     frequencyMax := None;
     period := Some 1;
     periodMax := None;
     periodUnit := Some "day";
     duration := Some dur;
     durationUnit := Some "days";
     count := None;
     isAsNeeded := false;
     rawText := None |}.

Definition statementOf (timings : list Timing) : MedicationStatement :=
  {| medication := "medication";
     brandName := None;
     genericName := None;
     rxnormCode := "0";
     form := None;
     timingSequence := timings;
     strength := {| amount := 1; unit := "mg" |};
     sourceText := "" |}.

End Legacy.

(** ** Windows of the timing sequence *)

(** The day offset at which the window after the timings [pre] starts, when
    none of them holds the date: the sum of their durations. *)
Definition windowStartAfter (pre : list Timing) : Z :=
  fold_right (fun t acc => durationDays t + acc) 0 pre.

(** A timing is bounded when its duration is present and positive. *)
Definition bounded (t : Timing) : Prop := 0 < durationDays t.

(** The day offset lies in the window that starts at [windowStart]. *)
Definition inWindow (windowStart daysDiff : Z) (t : Timing) : Prop :=
  windowStart <= daysDiff /\
  (bounded t -> daysDiff < windowStart + durationDays t).

(** The schedule has a list of times, and the list is not empty. *)
Definition hasTimes (s : MedicationSchedule) : Prop :=
  exists x xs, times s = Some (x :: xs).

(** ** Regimens used in the statements *)

(** A scheduled (not as-needed) timing with the listed fields and nothing
    else. *)
Definition scheduledTiming (amt : Z) (u : option string)
    (freq per : option Z) (pu : option string)
    (dur : option Z) (durU : option string)
    (st wds : option (list string)) : Timing :=
  {| orderInSequence := None;
     doseAmount := amt;
     doseUnit := u;
     frequency := freq;
     frequencyMax := None;
     period := per;
     periodMax := None;
     periodUnit := pu;
     duration := dur;
     durationUnit := durU;
     count := None;
     isAsNeeded := false;
     specificTimes := st;
     timeCategories := None;
     weekdays := wds;
     rawText := None |}.

Definition withDuration (dur : option Z) (t : Timing) : Timing :=
  {| orderInSequence := orderInSequence t;
     doseAmount := doseAmount t;
     doseUnit := doseUnit t;
     frequency := frequency t;
     frequencyMax := frequencyMax t;
     period := period t;
     periodMax := periodMax t;
     periodUnit := periodUnit t;
     duration := dur;
     durationUnit := durationUnit t;
     count := count t;
     isAsNeeded := isAsNeeded t;
     specificTimes := specificTimes t;
     timeCategories := timeCategories t;
     weekdays := weekdays t;
     rawText := rawText t |}.

Definition withDurationUnit (durU : option string) (t : Timing) : Timing :=
  {| orderInSequence := orderInSequence t;
     doseAmount := doseAmount t;
     doseUnit := doseUnit t;
     frequency := frequency t;
     frequencyMax := frequencyMax t;
     period := period t;
     periodMax := periodMax t;
     periodUnit := periodUnit t;
     duration := duration t;
     durationUnit := durU;
     count := count t;
     isAsNeeded := isAsNeeded t;
     specificTimes := specificTimes t;
     timeCategories := timeCategories t;
     weekdays := weekdays t;
     rawText := rawText t |}.

Definition asNeededTiming (amt : Z) (u : option string)
    (freq freqMax : option Z) : Timing :=
  {| orderInSequence := None;
     doseAmount := amt;
     doseUnit := u;
     frequency := freq;
     frequencyMax := freqMax;
     period := None;
     periodMax := None;
     periodUnit := None;
     duration := None;
     durationUnit := None;
     count := None;
     isAsNeeded := true;
     specificTimes := None;
     timeCategories := None;
     weekdays := None;
     rawText := None |}.

Definition statementOf (timings : list Timing) : MedicationStatement :=
  {| medication := "medication";
     brandName := None;
     genericName := None;
     rxnormCode := "0";
     form := None;
     timingSequence := timings;
     strength := {| amount := 1; unit := "mg" |};
     sourceText := "" |}.

(** Once a day for seven days, then twice a day without end. *)
Definition phaseA (amt : Z) (u : option string) : Timing :=
  scheduledTiming amt u (Some 1) (Some 1) (Some "day") (Some 7) None None None.

Definition phaseB (amt : Z) (u : option string) : Timing :=
  scheduledTiming amt u (Some 2) (Some 1) (Some "day") None None None None.

(** Once a day, for a duration of 2 whose unit is weeks. *)
Definition twoWeeks : Timing :=
  scheduledTiming 1 None (Some 1) (Some 1) (Some "day")
                  (Some 2) (Some "weeks") None None.

(** Once a day with the given duration and no unit. *)
Definition onceDailyFor (dur : option Z) : Timing :=
  scheduledTiming 1 None (Some 1) (Some 1) (Some "day") dur None None None.



(** ** What the specification says, where the projector is compared to it *)

Module Spec.

(** Window length in whole days by unit: days as they are, weeks times 7,
    months times 30, years times 365.25, truncated. *)
Definition windowDays (t : Timing) : option Z :=
  match duration t, durationUnit t with
  | Some n, Some "days" => Some n
  | Some n, Some "weeks" => Some (n * 7)
  | Some n, Some "months" => Some (n * 30)
  | Some n, Some "years" => Some (Z.quot (n * 1461) 4)
  | _, _ => None
  end.

(** The doses of a day: the frequency, one when it is absent or zero. *)
Definition dosesPerDay (t : Timing) : Z :=
  match frequency t with
  | Some f => if 0 <? f then f else 1
  | None => 1
  end.

(** The frequency clamped to the range 1 to 7. *)
Definition dosesPerWeek (t : Timing) : Z :=
  Z.min 7 (Z.max 1 (dosesPerDay t)).

(** The period, one when absent, and at least one. *)
Definition everyN (t : Timing) : Z :=
  Z.max 1 (match period t with Some p => p | None => 1 end).

(** [x ?? d]: only an absent value gives the default. *)
Definition nullish (x : option Z) (d : Z) : Z :=
  match x with
  | Some n => n
  | None => d
  end.

(** [frequencyMax ?? frequency ?? 1]. *)
Definition asNeededMax (t : Timing) : Z :=
  nullish (frequencyMax t) (nullish (frequency t) 1).

(** The hour [h] is the whole hour nearest to [8 + 12 * i / (f - 1)]. *)
Definition nearestHour (f i h : Z) : Prop :=
  (f - 1) * (2 * h - 1) <= 2 * (8 * (f - 1) + 12 * i) < (f - 1) * (2 * h + 1).


End Spec.

(** ** The callers of the projector ([MedicationCard.tsx]) *)

Record MedicationData := {
  medicationStatements : list MedicationStatement;
  freeTextResponse : option string
}.

(** [{ ...med, schedule }]. *)
Record MedicationWithSchedule := {
  statement : MedicationStatement;
  schedule : MedicationSchedule
}.

(** [xs.filter((x) => x !== null)]. *)
Fixpoint filterNonNull {A : Type} (xs : list (option A)) : list A :=
  match xs with
  | [] => []
  | Some x :: rest => x :: filterNonNull rest
  | None :: rest => filterNonNull rest
  end.

(** The callback of the [map]: [null] without schedule, the medication with
    its schedule otherwise. *)
Definition withSchedule (currentDate date : Date) (med : MedicationStatement)
  : option MedicationWithSchedule :=
  match getMedicationSchedule currentDate med date with
  | None => None
  | Some schedule => Some {| statement := med; schedule := schedule |}
  end.

(** [medications?.medicationStatements.map(...).filter(...) || []]. *)
Definition getDayMedications (currentDate : Date)
    (medications : option MedicationData) (date : Date)
  : list MedicationWithSchedule :=
  match medications with
  | None => []
  | Some data =>
      filterNonNull
        (map (withSchedule currentDate date) (medicationStatements data))
  end.

(** Truthiness of an optional boolean. *)
Definition truthyBool (x : option bool) : bool :=
  match x with
  | Some b => b
  | None => false
  end.

(** The summary of a calendar cell: [dayMeds.filter((m) =>
    !m.schedule.asNeeded)], [dayMeds.filter((m) => m.schedule.asNeeded)] and
    the sum of [m.schedule.times?.length || 0] over the regular ones. *)
Definition regularMeds (dayMeds : list MedicationWithSchedule)
  : list MedicationWithSchedule :=
  filter (fun m => negb (truthyBool (asNeeded (schedule m)))) dayMeds.

Definition asNeededMeds (dayMeds : list MedicationWithSchedule)
  : list MedicationWithSchedule :=
  filter (fun m => truthyBool (asNeeded (schedule m))) dayMeds.

Definition timesLength (m : MedicationWithSchedule) : Z :=
  JS.orZ (option_map (fun ts => Z.of_nat (List.length ts))
                     (times (schedule m))) 0.

Definition totalDoses (regular : list MedicationWithSchedule) : Z :=
  fold_left (fun sum m => sum + timesLength m) regular 0.




(** The text [k] occurs somewhere in the text [s]. *)
Definition occursIn (k s : string) : Prop :=
  exists a b : string, s = (a ++ k ++ b)%string.




(** The times pushed for a frequency, on their own. *)
Definition legacyTimes (t : Legacy.Timing) : list string :=
  Legacy.pushTimes (JS.orZ (Legacy.frequency t) 1) [].

(** The whole hours from 08:00 to 20:00. *)
Definition dayHours : list Z :=
  [8; 9; 10; 11; 12; 13; 14; 15; 16; 17; 18; 19; 20].

(** ** The colour of a medication ([utils.ts], [getMedColor]) *)

Definition colors : list string :=
  ["#2196f3"; "#4caf50"; "#9c27b0"; "#ff9800"; "#e91e63"; "#3f51b5"].

(** [colors[index % colors.length]]; an index outside the array gives
    [undefined]. *)
Definition getMedColor (index : Z) : option string :=
  let k := JS.remainder index (Z.of_nat (List.length colors)) in
  if k <? 0 then None else nth_error colors (Z.to_nat k).

(** ** The callers of the earlier copies *)

Module LegacyCallers.

(** [med.timingSequence.reduce((sum, timing) => sum + (timing?.duration ||
    0), 0)]. *)
Definition getDaysUntilRunOut (med : Legacy.MedicationStatement) : Z :=
  fold_left (fun sum timing => sum + JS.orZ (Legacy.duration timing) 0)
            (Legacy.timingSequence med) 0.

End LegacyCallers.

(** ** The first version, with one timing for a medication
    ([med-tracker/src/MedicationTimeline]) *)

Module Single.

Record Timing := {
  frequency : option Z;
  frequencyMax : option Z;
  period : option Z;
  periodMax : option Z;
  periodUnit : option string;
  duration : option Z;
  durationUnit : option string;
  count : option Z;
  isAsNeeded : bool;
  rawText : option string
}.

Record MedicationStatement := {
  medication : string;
  brandName : option string;
  genericName : option string;
  rxnormCode : string;
  strength : Strength;
  form : option string;
  timing : Timing;
  sourceText : string
}.

Definition getMedicationSchedule (currentDate : Date)
    (med : MedicationStatement) (date : Date)
  : option Legacy.MedicationSchedule :=
  let startDate := setHoursZero currentDate in
  let daysDiff := (getTime date - getTime startDate) / msPerDay in
  if (JS.truthyZ (duration (timing med))
      && (JS.orZ (duration (timing med)) 0 <=? daysDiff))%bool
  then None
  else
    let frequency := JS.orZ (frequency (timing med)) 1 in
    if isAsNeeded (timing med)
    then Some {| Legacy.asNeeded := Some true;
                 Legacy.max :=
                   Some (JS.orZ (frequencyMax (timing med)) frequency);
                 Legacy.times := None |}
    else Some (Legacy.timesSchedule (Legacy.pushTimes frequency [])).

Definition getDaysUntilRunOut (med : MedicationStatement) : option Z :=
  if negb (JS.truthyZ (duration (timing med))) then None
  else duration (timing med).

End Single.

(** A medication of the first version with one scheduled timing. *)
Definition singleCourse (freq dur : option Z) : Single.MedicationStatement :=
  {| Single.medication := "medication";
     Single.brandName := None;
     Single.genericName := None;
     Single.rxnormCode := "0";
     Single.strength := {| amount := 1; unit := "mg" |};
     Single.form := None;
     Single.timing :=
       {| Single.frequency := freq;
          Single.frequencyMax := None;
          Single.period := Some 1;
          Single.periodMax := None;
          Single.periodUnit := Some "day";
          Single.duration := dur;
          Single.durationUnit := Some "days";
          Single.count := None;
          Single.isAsNeeded := false;
          Single.rawText := None |};
     Single.sourceText := "" |}.

(** ** The timing block of a medication card ([MedicationCard.tsx]) *)

(** The label of [FrequencyBadge]; [None] when the component renders
    nothing. *)
Definition frequencyBadgeLabel (frequency : option Z) : option string :=
  if negb (JS.truthyZ frequency) then None
  else
    let f := JS.orZ frequency 0 in
    if f =? 1 then Some "Once"
    else if f =? 2 then Some "Twice"
    else Some (JS.stringOfNumber f ++ "×")%string.

(** The text of [PeriodDisplay]. *)
Definition periodDisplayText (timing : Timing) : string :=
  let period := JS.orZ (period timing) 1 in
  let periodUnit := JS.orString (periodUnit timing) "day" in
  let hasMax := JS.truthyZ (periodMax timing) in
  let periodMax := JS.orZ (periodMax timing) 0 in
  if negb (JS.truthyZ (frequency timing)) then "Unknown timing"
  else if hasMax && negb (periodMax =? period)
  then ("every " ++ JS.stringOfNumber period ++ "–"
        ++ JS.stringOfNumber periodMax ++ " " ++ periodUnit
        ++ (if (1 <? periodMax)%Z then "s" else ""))%string
  else if period =? 1 then "daily"
  else ("every " ++ JS.stringOfNumber period ++ " " ++ periodUnit
        ++ (if (1 <? period)%Z then "s" else ""))%string.

(** [hasFrequency] and [hasAllInfo] of [TimingBlock], and whether the block
    shows "Some timing information is missing". *)
Definition hasFrequency (timing : Timing) : bool :=
  match frequency timing with
  | Some f => 0 <? f
  | None => false
  end.

Definition hasAllInfo (timing : Timing) : bool :=
  hasFrequency timing
  && (match period timing with Some _ => true | None => false end
      || match specificTimes timing with
         | Some (_ :: _) => true
         | _ => false
         end)
  && (match duration timing with Some _ => true | None => false end
      || negb (JS.truthyZ (duration timing))).

Definition showsMissingInfo (timing : Timing) : bool :=
  negb (hasAllInfo timing) && negb (hasFrequency timing).


(** ** The calendar of the month ([generateCalendarDays], [navigateMonth])

    The methods of [Date] are those of the language, in a time zone without
    offset: a time value splits into its day number and its time within the
    day; year, month and day of the month are those of the proleptic
    Gregorian calendar, computed from the day number in cycles of 400 years
    (146 097 days) that start on a first of March. *)

Module Calendar.

Record CalendarDay := {
  date : Date;
  isCurrentMonth : bool
}.

(** The day number of a year, a month (1 to 12) and a day of the month. *)
Definition daysFromCivil (y m d : Z) : Z :=
  let y' := if m <=? 2 then y - 1 else y in
  let era := y' / 400 in
  let yoe := y' - era * 400 in
  let mp := if 2 <? m then m - 3 else m + 9 in
  let doy := (153 * mp + 2) / 5 + d - 1 in
  let doe := yoe * 365 + yoe / 4 - yoe / 100 + doy in
  era * 146097 + doe - 719468.

(** Year, month (1 to 12) and day of the month of a day number. *)
Definition civilFromDays (z : Z) : Z * Z * Z :=
  let z' := z + 719468 in
  let era := z' / 146097 in
  let doe := z' - era * 146097 in
  let yoe := (doe - doe / 1460 + doe / 36524 - doe / 146096) / 365 in
  let y := yoe + era * 400 in
  let doy := doe - (365 * yoe + yoe / 4 - yoe / 100) in
  let mp := (5 * doy + 2) / 153 in
  let d := doy - (153 * mp + 2) / 5 + 1 in
  let m := if mp <? 10 then mp + 3 else mp - 9 in
  (if m <=? 2 then y + 1 else y, m, d).

Definition day (t : Date) : Z := t / msPerDay.

Definition timeWithinDay (t : Date) : Z := t mod msPerDay.

Definition getFullYear (t : Date) : Z :=
  let '(y, _, _) := civilFromDays (day t) in y.

(** [getMonth] counts the months from 0. *)
Definition getMonth (t : Date) : Z :=
  let '(_, m, _) := civilFromDays (day t) in m - 1.

Definition getDate (t : Date) : Z :=
  let '(_, _, d) := civilFromDays (day t) in d.

(** [MakeDay]: the month may lie outside 0 to 11 and the day of the month
    outside the month; both carry over. *)
Definition makeDay (year month dt : Z) : Z :=
  let ym := year + month / 12 in
  let mn := month mod 12 in
  daysFromCivil ym (mn + 1) 1 + dt - 1.

Definition makeDate (dayNumber time : Z) : Date :=
  dayNumber * msPerDay + time.

(** [t.setDate(dt)]. *)
Definition setDate (t : Date) (dt : Z) : Date :=
  makeDate (makeDay (getFullYear t) (getMonth t) dt) (timeWithinDay t).

(** [t.setMonth(month)]. *)
Definition setMonth (t : Date) (month : Z) : Date :=
  makeDate (makeDay (getFullYear t) month (getDate t)) (timeWithinDay t).

Definition generateCalendarDays (currentDate : Date) : list CalendarDay :=
  let start := setHoursZero (setDate currentDate 1) in
  let end_ := setDate (setMonth start (getMonth start + 1)) 0 in
  let firstDay := getDay start in
  map (fun i =>
         {| date := setDate start
                      (getDate start - (firstDay - Z.of_nat i));
            isCurrentMonth := false |})
      (seq 0 (Z.to_nat firstDay))
  ++
  map (fun i =>
         {| date := setDate start (Z.of_nat i); isCurrentMonth := true |})
      (seq 1 (Z.to_nat (getDate end_))).

(** The date that [navigateMonth] sets as the current date. *)
Definition navigateMonth (currentDate : Date) (direction : Z) : Date :=
  setMonth currentDate (getMonth currentDate + direction).

(** The length of a month of the Gregorian calendar. *)
Definition isLeapYear (y : Z) : bool :=
  ((y mod 4 =? 0) && negb (y mod 100 =? 0)) || (y mod 400 =? 0).

Definition daysInMonth (y m : Z) : Z :=
  if m =? 2 then (if isLeapYear y then 29 else 28)
  else if (m =? 4) || (m =? 6) || (m =? 9) || (m =? 11) then 30
  else 31.

(** The month after month [m] of year [y]. *)
Definition nextMonth (y m : Z) : Z * Z :=
  if m =? 12 then (y + 1, 1) else (y, m + 1).

End Calendar.

(** * Properties *)

(** ** Arithmetic of the primitives *)

Lemma durationDays_some (t : Timing) (n : Z) :
  duration t = Some n -> durationDays t = n.
Proof.
  unfold durationDays. intros ->. simpl.
  destruct (Z.eqb_spec n 0); congruence.
Qed.

Lemma remainder_nonneg (a b : Z) :
  0 <= a -> 0 < b -> JS.remainder a b = a mod b.
Proof.
  intros Ha Hb. unfold JS.remainder. apply Z.rem_mod_nonneg; lia.
Qed.

(** [roundDiv] gives the integer nearest to the fraction, a half going
    up. *)
Lemma roundDiv_nearest (num den : Z) :
  0 < den ->
  den * (2 * JS.roundDiv num den - 1) <= 2 * num
  < den * (2 * JS.roundDiv num den + 1).
Proof.
  intros Hden. unfold JS.roundDiv.
  pose proof (Z.div_mod (2 * num + den) (2 * den) ltac:(lia)) as Hdm.
  pose proof (Z.mod_pos_bound (2 * num + den) (2 * den) ltac:(lia)) as Hb.
  nia.
Qed.


(** ** The walk over bounded timings *)

Lemma phaseStep_in_window (d bw tw r : Z) (t : Timing) :
  inWindow r d t ->
  phaseStep d bw tw r t = Return (occurrence d bw tw r t).
Proof.
  intros [Hlo Hhi]. unfold phaseStep, bounded in *.
  destruct (Z.ltb_spec 0 (durationDays t)) as [Hpos|Hnon].
  - specialize (Hhi Hpos).
    destruct (Z.ltb_spec d r); [lia|].
    destruct (Z.leb_spec (r + durationDays t) d); [lia|]. reflexivity.
  - destruct (Z.ltb_spec d r); [lia|]. reflexivity.
Qed.

Lemma phaseStep_past_window (d bw tw r : Z) (t : Timing) :
  bounded t -> r + durationDays t <= d ->
  phaseStep d bw tw r t = Continue (r + durationDays t).
Proof.
  unfold phaseStep, bounded. intros Hpos Hd.
  destruct (Z.ltb_spec 0 (durationDays t)); [|lia].
  destruct (Z.leb_spec (r + durationDays t) d); [|lia].
  now rewrite orb_true_r.
Qed.

Lemma scheduleLoop_skip (d bw tw : Z) (pre rest : list Timing) :
  forall r,
    Forall bounded pre ->
    r + windowStartAfter pre <= d ->
    scheduleLoop d bw tw r (pre ++ rest) =
    scheduleLoop d bw tw (r + windowStartAfter pre) rest.
Proof.
  induction pre as [|t pre IH]; intros r Hb Hd; simpl in *.
  - now rewrite Z.add_0_r.
  - inversion Hb as [|? ? Ht Hpre]; subst.
    assert (0 <= windowStartAfter pre) as Hnn.
    { clear - Hpre. induction Hpre; simpl; unfold bounded in *; lia. }
    rewrite phaseStep_past_window by (auto; lia).
    rewrite IH by (auto; lia). f_equal. lia.
Qed.

Lemma scheduleLoop_matched (d bw tw : Z) (pre post : list Timing) (t : Timing) :
  Forall bounded pre ->
  inWindow (windowStartAfter pre) d t ->
  scheduleLoop d bw tw 0 (pre ++ t :: post) =
  occurrence d bw tw (windowStartAfter pre) t.
Proof.
  intros Hpre Hin.
  rewrite scheduleLoop_skip by (auto; destruct Hin; lia).
  simpl. now rewrite phaseStep_in_window.
Qed.

(** Before the running offset, with no negative duration ahead, every timing
    is passed over. *)
Lemma scheduleLoop_before_offset (d bw tw : Z) (timings : list Timing) :
  forall r,
    Forall (fun t => 0 <= durationDays t) timings ->
    d < r ->
    scheduleLoop d bw tw r timings = None.
Proof.
  induction timings as [|t ts IH]; intros r Hnn Hd; simpl; [reflexivity|].
  inversion Hnn as [|? ? Ht Hts]; subst.
  unfold phaseStep.
  destruct (Z.ltb_spec 0 (durationDays t)).
  - destruct (Z.ltb_spec d r); [|lia]. simpl. apply IH; auto; lia.
  - destruct (Z.ltb_spec d r); [|lia]. apply IH; auto; lia.
Qed.

(** ** Dates *)




Lemma getDay_range (d : Date) : 0 <= getDay d < 7.
Proof. unfold getDay. apply Z.mod_pos_bound. lia. Qed.

(** ** The table of times *)

Lemma timesForFrequency_length (f : Z) :
  1 <= f -> List.length (timesForFrequency f) = Z.to_nat f.
Proof.
  intros Hf. unfold timesForFrequency.
  destruct (Z.leb_spec f 0); [lia|].
  destruct (Z.eqb_spec f 1); [subst; reflexivity|].
  destruct (Z.eqb_spec f 2); [subst; reflexivity|].
  destruct (Z.eqb_spec f 3); [subst; reflexivity|].
  destruct (Z.eqb_spec f 4); [subst; reflexivity|].
  now rewrite length_map, length_seq.
Qed.

Lemma timesForFrequency_nonempty (f : Z) :
  1 <= f -> exists x xs, timesForFrequency f = x :: xs.
Proof.
  intros Hf. pose proof (timesForFrequency_length f Hf) as Hlen.
  destruct (timesForFrequency f) as [|x xs].
  - simpl in Hlen. lia.
  - now exists x, xs.
Qed.


Lemma spreadHour_nearest (f i : Z) :
  4 < f -> Spec.nearestHour f i (spreadHour f i).
Proof.
  intros Hf. unfold Spec.nearestHour, spreadHour.
  pose proof (roundDiv_nearest (8 * (f - 1) + (20 - 8) * i) (f - 1)
                               ltac:(lia)) as H.
  replace (8 * (f - 1) + 12 * i) with (8 * (f - 1) + (20 - 8) * i) by lia.
  exact H.
Qed.

Lemma spreadHour_range (f i : Z) :
  4 < f -> 0 <= i < f -> 8 <= spreadHour f i <= 20.
Proof.
  intros Hf Hi. pose proof (spreadHour_nearest f i Hf) as H.
  unfold Spec.nearestHour in H. nia.
Qed.



(** ** The period tests and the calculated branch *)




Lemma dosesPerDay_code (t : Timing) :
  JS.orZ (Some (Z.max 0 (JS.orZ (frequency t) 0))) 1 = Spec.dosesPerDay t.
Proof.
  unfold Spec.dosesPerDay, JS.orZ.
  destruct (frequency t) as [f|]; [|reflexivity].
  destruct (Z.eqb_spec f 0); [subst; reflexivity|].
  destruct (Z.eqb_spec (Z.max 0 f) 0), (Z.ltb_spec 0 f); lia.
Qed.

Lemma dosesPerDay_positive (t : Timing) : 1 <= Spec.dosesPerDay t.
Proof.
  unfold Spec.dosesPerDay. destruct (frequency t) as [f|]; [|lia].
  destruct (Z.ltb_spec 0 f); lia.
Qed.

Lemma dosesPerWeek_range (t : Timing) : 1 <= Spec.dosesPerWeek t <= 7.
Proof. unfold Spec.dosesPerWeek. lia. Qed.




Lemma prefix_cons (a b : ascii) (s1 s2 : string) :
  String.prefix (String a s1) (String b s2) =
  if ascii_dec a b then String.prefix s1 s2 else false.
Proof. reflexivity. Qed.


(** The fields that decide the occurrence do not include the duration or
    its unit. *)
Lemma occurrence_withDurationUnit (d bw tw r : Z) (u : option string)
    (t : Timing) :
  occurrence d bw tw r (withDurationUnit u t) = occurrence d bw tw r t.
Proof. reflexivity. Qed.

Lemma occurrence_withDuration (d bw tw r : Z) (n : option Z) (t : Timing) :
  occurrence d bw tw r (withDuration n t) = occurrence d bw tw r t.
Proof. reflexivity. Qed.

Lemma phaseStep_bounded (d bw tw r : Z) (t : Timing) :
  bounded t ->
  phaseStep d bw tw r t =
  if (r <=? d) && (d <? r + durationDays t)
  then Return (occurrence d bw tw r t)
  else Continue (r + durationDays t).
Proof.
  unfold phaseStep, bounded. intros Hpos.
  destruct (Z.ltb_spec 0 (durationDays t)); [|lia].
  destruct (Z.ltb_spec d r), (Z.leb_spec (r + durationDays t) d),
    (Z.leb_spec r d), (Z.ltb_spec d (r + durationDays t));
    simpl; try reflexivity; lia.
Qed.

Lemma phaseStep_unbounded (d bw tw r : Z) (t : Timing) :
  durationDays t = 0 ->
  phaseStep d bw tw r t =
  if d <? r then Continue r else Return (occurrence d bw tw r t).
Proof.
  unfold phaseStep. intros ->. simpl. now rewrite Z.add_0_r.
Qed.

(** ** The claims *)

(** C1, as the specification has it, fails: here is a timing of duration 2
    with unit weeks, for which the specification's conversion gives a window
    of 14 days, while the projector leaves its window after 2 days: at day
    offset 2 the occurrence comes from the next timing. *)
Lemma C1_weeks_counterexample :
  duration twoWeeks = Some 2 /\
  durationUnit twoWeeks = Some "weeks" /\
  Spec.windowDays twoWeeks = Some 14 /\
  getMedicationSchedule 0 (statementOf [twoWeeks; phaseB 1 None])
                        (2 * msPerDay) =
  Some (timedSchedule ["08:00"; "20:00"] calculated None None (phaseB 1 None)).
Proof. repeat split; vm_compute; reflexivity. Qed.

(** C1, amended: for every timing whose duration is present and positive,
    the projector takes the duration itself as the length of the window in
    days, whatever the duration unit is: with the unit replaced by any other
    the step of the loop is the same, the date is in the window exactly
    when [windowStart <= dayOffset < windowStart + duration], and otherwise
    the next window starts [duration] days later. *)
Theorem C1_window_is_duration_whatever_unit
    (t : Timing) (n : Z) (u : option string) (d bw tw r : Z) :
  duration t = Some n -> 0 < n ->
  phaseStep d bw tw r (withDurationUnit u t) = phaseStep d bw tw r t /\
  phaseStep d bw tw r t =
  (if (r <=? d) && (d <? r + n)
   then Return (occurrence d bw tw r t)
   else Continue (r + n)).
Proof.
  intros Hdur Hn. split; [reflexivity|].
  rewrite phaseStep_bounded by (unfold bounded; rewrite (durationDays_some t n); auto).
  now rewrite (durationDays_some t n).
Qed.

Lemma C1_window_is_duration_whatever_unit_witness :
  duration twoWeeks = Some 2 /\ 0 < 2 /\
  phaseStep 1 0 1 0 (withDurationUnit (Some "days") twoWeeks) =
  phaseStep 1 0 1 0 twoWeeks /\
  phaseStep 1 0 1 0 twoWeeks =
  (if (0 <=? 1) && (1 <? 0 + 2)
   then Return (occurrence 1 0 1 0 twoWeeks)
   else Continue (0 + 2)).
Proof.
  split; [reflexivity|]. split; [lia|].
  apply (C1_window_is_duration_whatever_unit twoWeeks 2 (Some "days") 1 0 1 0);
    [reflexivity | lia].
Defined.



(** C3, as the specification has it, fails: a timing with a negative
    duration moves the running offset below zero, and the date one day
    before the start then falls in the window of the timing after it. *)
Lemma C3_negative_duration_counterexample :
  daysBetween (setHoursZero 0) (- msPerDay) = -1 /\
  getMedicationSchedule 0
    (statementOf [onceDailyFor (Some (-5)); onceDailyFor None]) (- msPerDay) =
  Some (timedSchedule ["08:00"] calculated None None (onceDailyFor None)).
Proof. split; vm_compute; reflexivity. Qed.

(** C3, amended: for every medication none of whose timings has a negative
    duration, and every date whose day offset from the start is negative,
    the projector returns null, whatever else the timings hold. *)
Theorem C3_before_start_is_null
    (currentDate : Date) (med : MedicationStatement) (date : Date) :
  Forall (fun t => 0 <= durationDays t) (timingSequence med) ->
  daysBetween (setHoursZero currentDate) date < 0 ->
  getMedicationSchedule currentDate med date = None.
Proof.
  intros Hnn Hneg. unfold getMedicationSchedule.
  now apply scheduleLoop_before_offset.
Qed.

Lemma C3_before_start_is_null_witness :
  Forall (fun t => 0 <= durationDays t)
         (timingSequence (statementOf [phaseA 1 None; phaseB 1 None])) /\
  daysBetween (setHoursZero 0) (-1) < 0 /\
  getMedicationSchedule 0 (statementOf [phaseA 1 None; phaseB 1 None]) (-1)
  = None.
Proof.
  assert (Forall (fun t => 0 <= durationDays t)
            (timingSequence (statementOf [phaseA 1 None; phaseB 1 None])))
    as Hnn by (repeat constructor; vm_compute; congruence).
  assert (daysBetween (setHoursZero 0) (-1) < 0) as Hneg by reflexivity.
  split; [exact Hnn|]. split; [exact Hneg|].
  exact (C3_before_start_is_null 0 _ (-1) Hnn Hneg).
Defined.

(** C4, as the specification has it, fails: for an as-needed timing whose
    frequency is 0 and whose maximum is absent, [frequencyMax ?? frequency
    ?? 1] is 0, and the projector gives a maximum of 1. *)
Lemma C4_zero_frequency_counterexample :
  Spec.asNeededMax (asNeededTiming 1 None (Some 0) None) = 0 /\
  exists s,
    getMedicationSchedule 0
      (statementOf [asNeededTiming 1 None (Some 0) None]) 0 = Some s /\
    asNeeded s = Some true /\ max s = Some 1.
Proof.
  split; [reflexivity|]. eexists. repeat split; vm_compute; reflexivity.
Qed.

(** C4, amended: for every as-needed timing whose window holds the day
    offset (the timings before it being bounded), the projector returns the
    as-needed occurrence with the dose of the timing and with [max] equal
    to [frequencyMax] when that is present and not zero, otherwise to
    [frequency] when that is present and not zero, otherwise to 1; weekdays,
    period and specific times play no part. *)
Theorem C4_as_needed_occurrence
    (pre post : list Timing) (t : Timing) (d bw tw : Z) :
  Forall bounded pre ->
  inWindow (windowStartAfter pre) d t ->
  isAsNeeded t = true ->
  scheduleLoop d bw tw 0 (pre ++ t :: post) =
  Some {| asNeeded := Some true;
          max := Some (match frequencyMax t, frequency t with
                       | Some m, Some f =>
                           if m =? 0 then (if f =? 0 then 1 else f) else m
                       | Some m, None => if m =? 0 then 1 else m
                       | None, Some f => if f =? 0 then 1 else f
                       | None, None => 1
                       end);
          times := None;
          schedDoseAmount := doseAmount t;
          schedDoseUnit := doseUnit t;
          source := None;
          explicitWeekdays := None;
          schedTimeCategories := None |}.
Proof.
  intros Hpre Hin Hprn.
  rewrite scheduleLoop_matched by assumption.
  unfold occurrence. rewrite Hprn. unfold asNeededSchedule, JS.orZ.
  destruct (frequencyMax t) as [m|], (frequency t) as [f|];
    try destruct (m =? 0); reflexivity.
Qed.

Lemma C4_as_needed_occurrence_witness :
  Forall bounded [phaseA 1 None] /\
  inWindow (windowStartAfter [phaseA 1 None]) 9
           (asNeededTiming 5 (Some "ml") (Some 2) (Some 4)) /\
  isAsNeeded (asNeededTiming 5 (Some "ml") (Some 2) (Some 4)) = true /\
  scheduleLoop 9 0 2 0
    ([phaseA 1 None] ++ asNeededTiming 5 (Some "ml") (Some 2) (Some 4) :: []) =
  Some {| asNeeded := Some true;
          max := Some 4;
          times := None;
          schedDoseAmount := 5;
          schedDoseUnit := Some "ml";
          source := None;
          explicitWeekdays := None;
          schedTimeCategories := None |}.
Proof.
  assert (Forall bounded [phaseA 1 None]) as Hpre
    by (repeat constructor).
  assert (inWindow (windowStartAfter [phaseA 1 None]) 9
            (asNeededTiming 5 (Some "ml") (Some 2) (Some 4))) as Hin
    by (split; [vm_compute; congruence | intros Hb; vm_compute in Hb; congruence]).
  split; [exact Hpre|]. split; [exact Hin|]. split; [reflexivity|].
  exact (C4_as_needed_occurrence [phaseA 1 None] []
           (asNeededTiming 5 (Some "ml") (Some 2) (Some 4)) 9 0 2
           Hpre Hin eq_refl).
Defined.

(** C8, as the specification has it, fails: a timing of duration 0 is not
    passed over; on the first day it gives the occurrence, and the timing
    after it is not consulted. *)
Lemma C8_zero_duration_counterexample :
  duration (onceDailyFor (Some 0)) = Some 0 /\
  getMedicationSchedule 0
    (statementOf [onceDailyFor (Some 0); phaseB 1 None]) 0 =
  Some (timedSchedule ["08:00"] calculated None None (onceDailyFor (Some 0))).
Proof. split; vm_compute; reflexivity. Qed.

(** C8, amended: a timing whose duration is 0 is treated as a timing without
    duration: the step of the loop is the one of the same timing with the
    duration removed; from its window start on, every day offset takes its
    occurrence from this timing and the timings after it are not consulted;
    before its window start the walk goes on to the next timing with the
    window start unchanged. *)
Theorem C8_zero_duration_is_open_ended
    (t : Timing) (rest : list Timing) (d bw tw r : Z) :
  duration t = Some 0 ->
  phaseStep d bw tw r t = phaseStep d bw tw r (withDuration None t) /\
  (r <= d ->
   scheduleLoop d bw tw r (t :: rest) = occurrence d bw tw r t) /\
  (d < r ->
   scheduleLoop d bw tw r (t :: rest) = scheduleLoop d bw tw r rest).
Proof.
  intros Hdur.
  assert (durationDays t = 0) as H0 by now apply durationDays_some.
  split; [|split].
  - rewrite !phaseStep_unbounded by (assumption || reflexivity).
    now rewrite occurrence_withDuration.
  - intros Hd. simpl. rewrite phaseStep_unbounded by assumption.
    destruct (Z.ltb_spec d r); [lia|reflexivity].
  - intros Hd. simpl. rewrite phaseStep_unbounded by assumption.
    destruct (Z.ltb_spec d r); [reflexivity|lia].
Qed.

Lemma C8_zero_duration_is_open_ended_witness :
  duration (onceDailyFor (Some 0)) = Some 0 /\
  phaseStep 3 0 3 0 (onceDailyFor (Some 0)) =
  phaseStep 3 0 3 0 (withDuration None (onceDailyFor (Some 0))) /\
  (0 <= 3 ->
   scheduleLoop 3 0 3 0 (onceDailyFor (Some 0) :: [phaseB 1 None]) =
   occurrence 3 0 3 0 (onceDailyFor (Some 0))) /\
  (3 < 0 ->
   scheduleLoop 3 0 3 0 (onceDailyFor (Some 0) :: [phaseB 1 None]) =
   scheduleLoop 3 0 3 0 [phaseB 1 None]).
Proof.
  split; [reflexivity|].
  exact (C8_zero_duration_is_open_ended (onceDailyFor (Some 0))
           [phaseB 1 None] 3 0 3 0 eq_refl).
Defined.

(** ** Weekdays *)








(** ** The weekdays of a weekly regimen *)






(** ** The earlier copies *)

Lemma legacy_days (c date : Date) :
  (getTime date - getTime (setHoursZero c)) / msPerDay =
  daysBetween (setHoursZero c) date.
Proof. reflexivity. Qed.

(** C9: the two earlier copies of the projector do not agree.  For the
    medication with the single bounded timing "twice a day for 7 days", the
    copy that tests [daysDiff <= duration] passes the timing over on the day
    offsets up to 7 and takes its times after them, the copy that tests
    [daysDiff >= duration] takes its times before day offset 7 and passes it
    over from there on: the results differ, for instance on the first
    day. *)
Theorem C9_copies_disagree :
  exists med : Legacy.MedicationStatement,
    (exists t rest,
        Legacy.timingSequence med = t :: rest /\
        Legacy.duration t = Some 7) /\
    (forall currentDate date,
        let d := daysBetween (setHoursZero currentDate) date in
        Legacy.Inclusive.getMedicationSchedule currentDate med date =
        Some (Legacy.timesSchedule
                (if d <=? 7 then [] else ["08:00"; "20:00"])) /\
        Legacy.Exclusive.getMedicationSchedule currentDate med date =
        Some (Legacy.timesSchedule
                (if 7 <=? d then [] else ["08:00"; "20:00"]))) /\
    Legacy.Inclusive.getMedicationSchedule 0 med 0 <>
    Legacy.Exclusive.getMedicationSchedule 0 med 0.
Proof.
  exists (Legacy.statementOf [Legacy.courseOf 2 7]).
  assert (forall c date,
             let d := daysBetween (setHoursZero c) date in
             Legacy.Inclusive.getMedicationSchedule c
               (Legacy.statementOf [Legacy.courseOf 2 7]) date =
             Some (Legacy.timesSchedule
                     (if d <=? 7 then [] else ["08:00"; "20:00"])) /\
             Legacy.Exclusive.getMedicationSchedule c
               (Legacy.statementOf [Legacy.courseOf 2 7]) date =
             Some (Legacy.timesSchedule
                     (if 7 <=? d then [] else ["08:00"; "20:00"]))) as Hboth.
  { intros c date d.
    unfold Legacy.Inclusive.getMedicationSchedule,
      Legacy.Exclusive.getMedicationSchedule.
    rewrite legacy_days. fold d. cbv zeta. simpl Legacy.timingSequence.
    unfold Legacy.Inclusive.loop, Legacy.Exclusive.loop,
      Legacy.Inclusive.loopBody, Legacy.Exclusive.loopBody.
    simpl.
    destruct (d <=? 7), (7 <=? d); split; reflexivity. }
  split; [now exists (Legacy.courseOf 2 7), []|].
  split; [exact Hboth|].
  vm_compute. discriminate.
Qed.

(** ** Times are never empty *)

Lemma explicitOccurrence_times (d tw r : Z) (t : Timing) (x : string)
    (xs : list string) (withCats : bool) (s : MedicationSchedule) :
  explicitOccurrence d tw r t (x :: xs) withCats = Some s -> hasTimes s.
Proof.
  unfold explicitOccurrence, hasTimes. intros H. exists x, xs.
  destruct (JS.nonEmpty (weekdays t)).
  - destruct (negb _); [discriminate|]. now inversion H.
  - cbv zeta in H.
    destruct (JS.startsWith (periodUnitOf t) "day").
    + destruct (firesOnDay _ _ _); [|discriminate]. now inversion H.
    + destruct (JS.startsWith (periodUnitOf t) "week").
      * destruct (firesInWeek _ _ _); [|discriminate]. now inversion H.
      * now inversion H.
Qed.

Lemma calculatedOccurrence_times (d bw tw r : Z) (t : Timing)
    (s : MedicationSchedule) :
  calculatedOccurrence d bw tw r t = Some s -> hasTimes s.
Proof.
  unfold calculatedOccurrence, hasTimes. cbv zeta.
  rewrite dosesPerDay_code. fold (Spec.dosesPerWeek t).
  destruct (timesForFrequency_nonempty _ (dosesPerDay_positive t))
    as [x [xs Hday]].
  destruct (timesForFrequency_nonempty _ (proj1 (dosesPerWeek_range t)))
    as [y [ys Hweek]].
  intros H.
  destruct (JS.startsWith (periodUnitOf t) "day").
  - destruct (firesOnDay _ _ _); [|discriminate].
    exists x, xs. inversion H. simpl. now rewrite Hday.
  - destruct (JS.startsWith (periodUnitOf t) "week").
    + destruct (firesInWeek _ _ _); [|discriminate].
      destruct (negb _); [discriminate|].
      exists y, ys. inversion H. simpl. now rewrite Hweek.
    + exists x, xs. inversion H. simpl. now rewrite Hday.
Qed.

Lemma occurrence_times (d bw tw r : Z) (t : Timing) (s : MedicationSchedule) :
  occurrence d bw tw r t = Some s ->
  asNeeded s = Some true \/ hasTimes s.
Proof.
  unfold occurrence. intros H.
  destruct (isAsNeeded t).
  - left. now inversion H.
  - right. destruct (specificTimes t) as [[|x xs]|]; simpl in H.
    + destruct (mappedCategories t) as [|y ys].
      * eapply calculatedOccurrence_times; eassumption.
      * eapply explicitOccurrence_times; eassumption.
    + eapply explicitOccurrence_times; eassumption.
    + destruct (mappedCategories t) as [|y ys].
      * eapply calculatedOccurrence_times; eassumption.
      * eapply explicitOccurrence_times; eassumption.
Qed.

Lemma scheduleLoop_times (d bw tw : Z) (timings : list Timing)
    (s : MedicationSchedule) :
  forall r,
    scheduleLoop d bw tw r timings = Some s ->
    asNeeded s = Some true \/ hasTimes s.
Proof.
  induction timings as [|t ts IH]; intros r H; simpl in H; [discriminate|].
  unfold phaseStep in H.
  destruct (0 <? durationDays t).
  - destruct ((d <? r) || (r + durationDays t <=? d)).
    + eapply IH; eassumption.
    + eapply occurrence_times; eassumption.
  - destruct (d <? r).
    + eapply IH; eassumption.
    + eapply occurrence_times; eassumption.
Qed.

(** C10: whenever the projector returns a schedule that is not as-needed,
    the schedule has a list of times and the list is not empty. *)
Theorem C10_times_nonempty
    (currentDate : Date) (med : MedicationStatement) (date : Date)
    (s : MedicationSchedule) :
  getMedicationSchedule currentDate med date = Some s ->
  asNeeded s <> Some true ->
  exists x xs, times s = Some (x :: xs).
Proof.
  unfold getMedicationSchedule. intros H Hprn.
  destruct (scheduleLoop_times _ _ _ _ _ _ H) as [Has|Hts];
    [contradiction|exact Hts].
Qed.

Lemma C10_times_nonempty_witness :
  getMedicationSchedule 0 (statementOf [phaseA 1 None; phaseB 1 None])
                        (9 * msPerDay) =
  Some (timedSchedule ["08:00"; "20:00"] calculated None None (phaseB 1 None))
  /\
  asNeeded (timedSchedule ["08:00"; "20:00"] calculated None None
                          (phaseB 1 None)) <> Some true /\
  exists x xs,
    times (timedSchedule ["08:00"; "20:00"] calculated None None
                         (phaseB 1 None)) = Some (x :: xs).
Proof.
  assert (asNeeded (timedSchedule ["08:00"; "20:00"] calculated None None
                                  (phaseB 1 None)) <> Some true) as Hprn
    by discriminate.
  split; [reflexivity|]. split; [exact Hprn|].
  exact (C10_times_nonempty 0 (statementOf [phaseA 1 None; phaseB 1 None])
           (9 * msPerDay) _ eq_refl Hprn).
Defined.

(** * Further properties of the code *)

(** ** The medications of a day *)

Lemma filterNonNull_map_schedule (c date : Date)
    (meds : list MedicationStatement) :
  map statement (filterNonNull (map (withSchedule c date) meds)) =
  filter (fun med => match getMedicationSchedule c med date with
                     | Some _ => true
                     | None => false
                     end) meds /\
  Forall (fun m => getMedicationSchedule c (statement m) date =
                   Some (schedule m))
         (filterNonNull (map (withSchedule c date) meds)).
Proof.
  induction meds as [|med meds [IHm IHf]]; simpl.
  - split; constructor.
  - assert (withSchedule c date med =
            match getMedicationSchedule c med date with
            | None => None
            | Some s => Some {| statement := med; schedule := s |}
            end) as -> by reflexivity.
    destruct (getMedicationSchedule c med date) as [s|] eqn:Hs; simpl.
    + split; [now rewrite IHm|]. constructor; assumption.
    + split; assumption.
Qed.

(** The list of a day holds, in the order of the medication list, exactly
    the medications for which the projector gives a schedule on that date,
    each with that schedule; without medication data it is empty. *)
Theorem getDayMedications_exact (c : Date) (data : MedicationData)
    (date : Date) :
  map statement (getDayMedications c (Some data) date) =
  filter (fun med => match getMedicationSchedule c med date with
                     | Some _ => true
                     | None => false
                     end) (medicationStatements data) /\
  Forall (fun m => getMedicationSchedule c (statement m) date =
                   Some (schedule m))
         (getDayMedications c (Some data) date) /\
  getDayMedications c None date = [].
Proof.
  destruct (filterNonNull_map_schedule c date (medicationStatements data))
    as [Hm Hf].
  split; [exact Hm|]. split; [exact Hf|reflexivity].
Qed.

(** On a date before the start day no medication is listed, when no timing
    has a negative duration. *)
Theorem getDayMedications_before_start (c : Date) (data : MedicationData)
    (date : Date) :
  Forall (fun med => Forall (fun t => 0 <= durationDays t)
                            (timingSequence med))
         (medicationStatements data) ->
  daysBetween (setHoursZero c) date < 0 ->
  getDayMedications c (Some data) date = [].
Proof.
  intros Hall Hneg. unfold getDayMedications.
  induction Hall as [|med meds Hmed _ IH]; simpl; [reflexivity|].
  assert (withSchedule c date med = None) as ->; [|exact IH].
  unfold withSchedule, getMedicationSchedule.
  now rewrite scheduleLoop_before_offset.
Qed.

Lemma getDayMedications_before_start_witness :
  Forall (fun med => Forall (fun t => 0 <= durationDays t)
                            (timingSequence med))
         (medicationStatements
            {| medicationStatements :=
                 [statementOf [phaseA 1 None; phaseB 1 None]];
               freeTextResponse := None |}) /\
  daysBetween (setHoursZero 0) (-1) < 0 /\
  getDayMedications 0
    (Some {| medicationStatements :=
               [statementOf [phaseA 1 None; phaseB 1 None]];
             freeTextResponse := None |}) (-1) = [].
Proof.
  assert (Forall (fun med => Forall (fun t => 0 <= durationDays t)
                                    (timingSequence med))
            (medicationStatements
               {| medicationStatements :=
                    [statementOf [phaseA 1 None; phaseB 1 None]];
                  freeTextResponse := None |})) as Hall
    by (repeat constructor; vm_compute; congruence).
  assert (daysBetween (setHoursZero 0) (-1) < 0) as Hneg by reflexivity.
  split; [exact Hall|]. split; [exact Hneg|].
  exact (getDayMedications_before_start 0 _ (-1) Hall Hneg).
Defined.

(** ** The end of a course and the order of the windows *)

Lemma windowStartAfter_nonneg (l : list Timing) :
  Forall bounded l -> 0 <= windowStartAfter l.
Proof. induction 1; simpl; unfold bounded in *; lia. Qed.

(** A medication all of whose timings are bounded has no occurrence from the
    day on which the last window ends. *)
Theorem course_ends_after_last_window (c : Date) (med : MedicationStatement)
    (date : Date) :
  Forall bounded (timingSequence med) ->
  windowStartAfter (timingSequence med) <= daysBetween (setHoursZero c) date ->
  getMedicationSchedule c med date = None.
Proof.
  intros Hb Hd. unfold getMedicationSchedule.
  rewrite <- (app_nil_r (timingSequence med)).
  now rewrite scheduleLoop_skip by (auto; lia).
Qed.

Lemma course_ends_after_last_window_witness :
  Forall bounded (timingSequence (statementOf [phaseA 1 None])) /\
  windowStartAfter (timingSequence (statementOf [phaseA 1 None]))
  <= daysBetween (setHoursZero 0) (7 * msPerDay) /\
  getMedicationSchedule 0 (statementOf [phaseA 1 None]) (7 * msPerDay) = None.
Proof.
  assert (Forall bounded (timingSequence (statementOf [phaseA 1 None])))
    as Hb by (repeat constructor).
  assert (windowStartAfter (timingSequence (statementOf [phaseA 1 None]))
          <= daysBetween (setHoursZero 0) (7 * msPerDay)) as Hd
    by (vm_compute; congruence).
  split; [exact Hb|]. split; [exact Hd|].
  exact (course_ends_after_last_window 0 _ (7 * msPerDay) Hb Hd).
Defined.

Lemma scheduleLoop_partition (d bw tw : Z) (l : list Timing) :
  forall r,
    Forall bounded l ->
    r <= d < r + windowStartAfter l ->
    exists pre t post,
      l = pre ++ t :: post /\
      inWindow (r + windowStartAfter pre) d t /\
      scheduleLoop d bw tw r l =
      occurrence d bw tw (r + windowStartAfter pre) t.
Proof.
  induction l as [|t l IH]; intros r Hb Hd; simpl in Hd; [lia|].
  inversion Hb as [|? ? Ht Hl]; subst.
  destruct (Z.lt_ge_cases d (r + durationDays t)) as [Hin|Hout].
  - exists [], t, l. simpl. rewrite Z.add_0_r.
    assert (inWindow r d t) as Hw by (split; [lia|auto]).
    split; [reflexivity|]. split; [exact Hw|].
    now rewrite phaseStep_in_window.
  - destruct (IH (r + durationDays t) Hl ltac:(lia))
      as [pre [u [post [Heq [Hw Hs]]]]].
    exists (t :: pre), u, post. simpl.
    replace (r + (durationDays t + windowStartAfter pre))
      with (r + durationDays t + windowStartAfter pre) by lia.
    split; [now rewrite Heq|]. split; [exact Hw|].
    now rewrite phaseStep_past_window by assumption.
Qed.

(** The windows of bounded timings cover the days from 0 to the sum of the
    durations without gap: every such day lies in the window of one timing
    of the sequence, which starts at the sum of the durations before it, and
    the projector gives the occurrence of that timing. *)
Theorem windows_partition_the_course (d bw tw : Z) (l : list Timing) :
  Forall bounded l ->
  0 <= d < windowStartAfter l ->
  exists pre t post,
    l = pre ++ t :: post /\
    inWindow (windowStartAfter pre) d t /\
    scheduleLoop d bw tw 0 l = occurrence d bw tw (windowStartAfter pre) t.
Proof.
  intros Hb Hd.
  destruct (scheduleLoop_partition d bw tw l 0 Hb ltac:(lia))
    as [pre [t [post H]]].
  now exists pre, t, post.
Qed.

Lemma windows_partition_the_course_witness :
  Forall bounded [phaseA 1 None; onceDailyFor (Some 3)] /\
  0 <= 8 < windowStartAfter [phaseA 1 None; onceDailyFor (Some 3)] /\
  exists pre t post,
    [phaseA 1 None; onceDailyFor (Some 3)] = pre ++ t :: post /\
    inWindow (windowStartAfter pre) 8 t /\
    scheduleLoop 8 0 1 0 [phaseA 1 None; onceDailyFor (Some 3)] =
    occurrence 8 0 1 (windowStartAfter pre) t.
Proof.
  assert (Forall bounded [phaseA 1 None; onceDailyFor (Some 3)]) as Hb
    by (repeat constructor).
  assert (0 <= 8 < windowStartAfter [phaseA 1 None; onceDailyFor (Some 3)])
    as Hd by (vm_compute; split; congruence).
  split; [exact Hb|]. split; [exact Hd|].
  exact (windows_partition_the_course 8 0 1 _ Hb Hd).
Defined.

Lemma scheduleLoop_within (d bw tw : Z) (pre rest rest' : list Timing) :
  forall r,
    Forall bounded pre ->
    r <= d < r + windowStartAfter pre ->
    scheduleLoop d bw tw r (pre ++ rest) =
    scheduleLoop d bw tw r (pre ++ rest').
Proof.
  induction pre as [|t pre IH]; intros r Hb Hd; simpl in *; [lia|].
  inversion Hb as [|? ? Ht Hpre]; subst.
  destruct (Z.lt_ge_cases d (r + durationDays t)) as [Hin|Hout].
  - rewrite phaseStep_in_window by (split; [lia|auto]). reflexivity.
  - rewrite phaseStep_past_window by assumption.
    apply IH; [assumption|lia].
Qed.

(** The timings after a timing without duration are never consulted: from
    the start day on, replacing or removing them does not change the
    result. *)
Theorem timings_after_open_ended_unreachable
    (d bw tw : Z) (pre post post' : list Timing) (t : Timing) :
  Forall bounded pre ->
  durationDays t = 0 ->
  0 <= d ->
  scheduleLoop d bw tw 0 (pre ++ t :: post) =
  scheduleLoop d bw tw 0 (pre ++ t :: post').
Proof.
  intros Hb Ht Hd.
  destruct (Z.lt_ge_cases d (windowStartAfter pre)) as [Hin|Hout].
  - apply scheduleLoop_within; [assumption|lia].
  - assert (inWindow (windowStartAfter pre) d t) as Hw.
    { split; [lia|]. unfold bounded. lia. }
    now rewrite !scheduleLoop_matched by assumption.
Qed.

Lemma timings_after_open_ended_unreachable_witness :
  Forall bounded [phaseA 1 None] /\
  durationDays (phaseB 1 None) = 0 /\
  0 <= 3 /\
  scheduleLoop 3 0 3 0 ([phaseA 1 None] ++ phaseB 1 None :: [twoWeeks]) =
  scheduleLoop 3 0 3 0 ([phaseA 1 None] ++ phaseB 1 None :: []).
Proof.
  assert (Forall bounded [phaseA 1 None]) as Hb by (repeat constructor).
  assert (0 <= 3) as Hd by lia.
  split; [exact Hb|]. split; [reflexivity|]. split; [exact Hd|].
  exact (timings_after_open_ended_unreachable 3 0 3 [phaseA 1 None]
           [twoWeeks] [] (phaseB 1 None) Hb eq_refl Hd).
Defined.

(** ** What a schedule holds *)

Lemma explicitOccurrence_dose (d tw r : Z) (t : Timing) (ts : list string)
    (withCats : bool) (s : MedicationSchedule) :
  explicitOccurrence d tw r t ts withCats = Some s ->
  schedDoseAmount s = doseAmount t /\ schedDoseUnit s = doseUnit t /\
  times s = Some ts /\ source s = Some explicit /\
  asNeeded s = None /\ max s = None.
Proof.
  unfold explicitOccurrence. intros H.
  destruct (JS.nonEmpty (weekdays t)).
  - destruct (negb _); [discriminate|]. now inversion H.
  - cbv zeta in H.
    destruct (JS.startsWith (periodUnitOf t) "day").
    + destruct (firesOnDay _ _ _); [|discriminate]. now inversion H.
    + destruct (JS.startsWith (periodUnitOf t) "week").
      * destruct (firesInWeek _ _ _); [|discriminate]. now inversion H.
      * now inversion H.
Qed.

Lemma calculatedOccurrence_dose (d bw tw r : Z) (t : Timing)
    (s : MedicationSchedule) :
  calculatedOccurrence d bw tw r t = Some s ->
  schedDoseAmount s = doseAmount t /\ schedDoseUnit s = doseUnit t /\
  source s = Some calculated /\
  asNeeded s = None /\ max s = None /\
  (times s = Some (timesForFrequency (Spec.dosesPerDay t)) \/
   times s = Some (timesForFrequency (Spec.dosesPerWeek t))).
Proof.
  unfold calculatedOccurrence. cbv zeta.
  rewrite dosesPerDay_code. fold (Spec.dosesPerWeek t). intros H.
  destruct (JS.startsWith (periodUnitOf t) "day").
  - destruct (firesOnDay _ _ _); [|discriminate]. inversion H. simpl.
    repeat split; auto.
  - destruct (JS.startsWith (periodUnitOf t) "week").
    + destruct (firesInWeek _ _ _); [|discriminate].
      destruct (negb _); [discriminate|]. inversion H. simpl.
      repeat split; auto.
    + inversion H. simpl. repeat split; auto.
Qed.

Lemma occurrence_dose (d bw tw r : Z) (t : Timing) (s : MedicationSchedule) :
  occurrence d bw tw r t = Some s ->
  schedDoseAmount s = doseAmount t /\ schedDoseUnit s = doseUnit t.
Proof.
  unfold occurrence. intros H.
  destruct (isAsNeeded t); [now inversion H|].
  destruct (JS.nonEmpty (specificTimes t)).
  - apply explicitOccurrence_dose in H. tauto.
  - destruct (mappedCategories t).
    + apply calculatedOccurrence_dose in H. tauto.
    + apply explicitOccurrence_dose in H. tauto.
Qed.

Lemma scheduleLoop_from_timing (d bw tw : Z) (timings : list Timing)
    (s : MedicationSchedule) :
  forall r,
    scheduleLoop d bw tw r timings = Some s ->
    exists t r', In t timings /\ occurrence d bw tw r' t = Some s.
Proof.
  induction timings as [|t ts IH]; intros r H; simpl in H; [discriminate|].
  unfold phaseStep in H.
  assert (forall r', scheduleLoop d bw tw r' ts = Some s ->
                     exists u r'', In u (t :: ts) /\
                                   occurrence d bw tw r'' u = Some s) as Hrest.
  { intros r' Hr'. destruct (IH r' Hr') as [u [r'' [Hin Hocc]]].
    exists u, r''. split; [now right|assumption]. }
  assert (occurrence d bw tw r t = Some s ->
          exists u r'', In u (t :: ts) /\
                        occurrence d bw tw r'' u = Some s) as Hhere.
  { intros Hocc. exists t, r. split; [now left|assumption]. }
  destruct (0 <? durationDays t).
  - destruct ((d <? r) || (r + durationDays t <=? d)); eauto.
  - destruct (d <? r); eauto.
Qed.

(** The dose of a schedule is never invented: whenever the projector
    returns a schedule, its dose amount and dose unit are those of one of
    the timings of the medication. *)
Theorem schedule_dose_from_a_timing (c : Date) (med : MedicationStatement)
    (date : Date) (s : MedicationSchedule) :
  getMedicationSchedule c med date = Some s ->
  exists t, In t (timingSequence med) /\
            schedDoseAmount s = doseAmount t /\
            schedDoseUnit s = doseUnit t.
Proof.
  unfold getMedicationSchedule. intros H.
  destruct (scheduleLoop_from_timing _ _ _ _ _ _ H) as [t [r [Hin Hocc]]].
  exists t. split; [assumption|]. eapply occurrence_dose; eassumption.
Qed.

Lemma schedule_dose_from_a_timing_witness :
  getMedicationSchedule 0 (statementOf [phaseA 3 (Some "ml")]) 0 =
  Some (timedSchedule ["08:00"] calculated None None (phaseA 3 (Some "ml")))
  /\
  exists t, In t (timingSequence (statementOf [phaseA 3 (Some "ml")])) /\
            schedDoseAmount
              (timedSchedule ["08:00"] calculated None None
                             (phaseA 3 (Some "ml"))) = doseAmount t /\
            schedDoseUnit
              (timedSchedule ["08:00"] calculated None None
                             (phaseA 3 (Some "ml"))) = doseUnit t.
Proof.
  split; [reflexivity|].
  exact (schedule_dose_from_a_timing 0 (statementOf [phaseA 3 (Some "ml")]) 0
           _ eq_refl).
Defined.

Lemma occurrence_shape (d bw tw r : Z) (t : Timing) (s : MedicationSchedule) :
  occurrence d bw tw r t = Some s ->
  (asNeeded s = Some true /\ times s = None /\ source s = None /\
   exists m, max s = Some m /\ m <> 0) \/
  (asNeeded s = None /\ max s = None /\ hasTimes s /\
   exists src, source s = Some src).
Proof.
  intros H. pose proof (occurrence_times _ _ _ _ _ _ H) as Hts.
  unfold occurrence in H.
  destruct (isAsNeeded t).
  - left. inversion H. simpl. repeat split.
    eexists. split; [reflexivity|]. unfold JS.orZ.
    destruct (frequencyMax t) as [m|], (frequency t) as [f|];
      repeat match goal with
             | |- context [?x =? 0] => destruct (Z.eqb_spec x 0)
             end; lia.
  - right.
    assert (asNeeded s = None /\ max s = None /\
            exists src, source s = Some src) as [Ha [Hm Hsrc]].
    { destruct (JS.nonEmpty (specificTimes t)).
      - apply explicitOccurrence_dose in H.
        destruct H as [_ [_ [_ [Hs [Ha Hm]]]]]. eauto.
      - destruct (mappedCategories t).
        + apply calculatedOccurrence_dose in H.
          destruct H as [_ [_ [Hs [Ha [Hm _]]]]]. eauto.
        + apply explicitOccurrence_dose in H.
          destruct H as [_ [_ [_ [Hs [Ha Hm]]]]]. eauto. }
    destruct Hts as [Hbad|Hts]; [congruence|]. auto.
Qed.

(** A schedule has one of two shapes, never a mix: as-needed, with a
    maximum that is not 0 and without times or source; or timed, with a
    list of times that is not empty and a source, and without as-needed
    mark or maximum. *)
Theorem schedule_shape (c : Date) (med : MedicationStatement) (date : Date)
    (s : MedicationSchedule) :
  getMedicationSchedule c med date = Some s ->
  (asNeeded s = Some true /\ times s = None /\ source s = None /\
   exists m, max s = Some m /\ m <> 0) \/
  (asNeeded s = None /\ max s = None /\ hasTimes s /\
   exists src, source s = Some src).
Proof.
  unfold getMedicationSchedule. intros H.
  destruct (scheduleLoop_from_timing _ _ _ _ _ _ H) as [t [r [_ Hocc]]].
  eapply occurrence_shape; eassumption.
Qed.

Lemma schedule_shape_witness :
  getMedicationSchedule 0
    (statementOf [asNeededTiming 1 None (Some 0) None]) 0 =
  Some (asNeededSchedule (asNeededTiming 1 None (Some 0) None)) /\
  ((asNeeded (asNeededSchedule (asNeededTiming 1 None (Some 0) None))
    = Some true /\
    times (asNeededSchedule (asNeededTiming 1 None (Some 0) None)) = None /\
    source (asNeededSchedule (asNeededTiming 1 None (Some 0) None)) = None /\
    exists m,
      max (asNeededSchedule (asNeededTiming 1 None (Some 0) None)) = Some m
      /\ m <> 0) \/
   (asNeeded (asNeededSchedule (asNeededTiming 1 None (Some 0) None)) = None
    /\
    max (asNeededSchedule (asNeededTiming 1 None (Some 0) None)) = None /\
    hasTimes (asNeededSchedule (asNeededTiming 1 None (Some 0) None)) /\
    exists src,
      source (asNeededSchedule (asNeededTiming 1 None (Some 0) None))
      = Some src)).
Proof.
  split; [reflexivity|].
  exact (schedule_shape 0 (statementOf [asNeededTiming 1 None (Some 0) None])
           0 _ eq_refl).
Defined.

(** ** The calculated times *)

Lemma roundDiv_monotone (a b den : Z) :
  0 < den -> a <= b -> JS.roundDiv a den <= JS.roundDiv b den.
Proof.
  intros Hden Hab. unfold JS.roundDiv. apply Z.div_le_mono; lia.
Qed.

Lemma spreadHour_monotone (f i j : Z) :
  4 < f -> i <= j -> spreadHour f i <= spreadHour f j.
Proof.
  intros Hf Hij. unfold spreadHour. apply roundDiv_monotone; lia.
Qed.

Lemma sorted_map_seq (g : nat -> Z) (n : nat) :
  (forall i j, (i <= j)%nat -> g i <= g j) ->
  forall start, StronglySorted Z.le (map g (seq start n)).
Proof.
  intros Hmono. induction n as [|n IH]; intros start; simpl; constructor.
  - apply IH.
  - apply Forall_forall. intros x Hx. apply in_map_iff in Hx.
    destruct Hx as [k [<- Hk]]. apply in_seq in Hk. apply Hmono. lia.
Qed.

Lemma timesForFrequency_hours (f : Z) :
  1 <= f ->
  exists hs,
    timesForFrequency f = map clockOfHour hs /\
    List.length hs = Z.to_nat f /\
    Forall (fun h => 8 <= h <= 20) hs /\
    StronglySorted Z.le hs.
Proof.
  intros Hf. unfold timesForFrequency.
  destruct (Z.leb_spec f 0); [lia|].
  destruct (Z.eqb_spec f 1);
    [subst; exists [8]; repeat split; repeat constructor; lia|].
  destruct (Z.eqb_spec f 2);
    [subst; exists [8; 20]; repeat split; repeat constructor; lia|].
  destruct (Z.eqb_spec f 3);
    [subst; exists [8; 14; 20]; repeat split; repeat constructor; lia|].
  destruct (Z.eqb_spec f 4);
    [subst; exists [8; 12; 16; 20]; repeat split; repeat constructor; lia|].
  exists (map (fun i => spreadHour f (Z.of_nat i)) (seq 0 (Z.to_nat f))).
  split; [now rewrite map_map|].
  split; [now rewrite length_map, length_seq|]. split.
  - apply Forall_forall. intros h Hh. apply in_map_iff in Hh.
    destruct Hh as [k [<- Hk]]. apply in_seq in Hk.
    apply spreadHour_range; lia.
  - apply sorted_map_seq. intros i j Hij. apply spreadHour_monotone; lia.
Qed.

(** The times calculated from a frequency of at least 1 are as many as the
    frequency, each a whole hour from 08:00 to 20:00, in the order of the
    day (never decreasing). *)
Theorem calculated_times_within_the_day (f : Z) :
  1 <= f ->
  exists hs,
    timesForFrequency f = map clockOfHour hs /\
    List.length hs = Z.to_nat f /\
    Forall (fun h => 8 <= h <= 20) hs /\
    StronglySorted Z.le hs.
Proof. exact (timesForFrequency_hours f). Qed.

Lemma calculated_times_within_the_day_witness :
  1 <= 6 /\
  exists hs,
    timesForFrequency 6 = map clockOfHour hs /\
    List.length hs = Z.to_nat 6 /\
    Forall (fun h => 8 <= h <= 20) hs /\
    StronglySorted Z.le hs.
Proof.
  split; [lia|]. apply (calculated_times_within_the_day 6). lia.
Defined.

Lemma dayHours_complete (h : Z) : 8 <= h <= 20 -> In h dayHours.
Proof. intros Hh. unfold dayHours. simpl. lia. Qed.

(** Up to 13 doses a day the calculated times are all different; from 14
    doses on two doses share a time, since only the 13 whole hours from
    08:00 to 20:00 are used. *)
Theorem calculated_times_distinct_up_to_13 (f : Z) :
  (1 <= f <= 13 -> NoDup (timesForFrequency f)) /\
  (14 <= f -> ~ NoDup (timesForFrequency f)).
Proof.
  split.
  - intros Hf.
    assert (nodup string_dec (timesForFrequency f) = timesForFrequency f)
      as Hnd.
    { assert (f = 1 \/ f = 2 \/ f = 3 \/ f = 4 \/ f = 5 \/ f = 6 \/ f = 7 \/
              f = 8 \/ f = 9 \/ f = 10 \/ f = 11 \/ f = 12 \/ f = 13)
        as Hc by lia.
      repeat (destruct Hc as [-> | Hc]; [vm_compute; reflexivity|]).
      subst. vm_compute. reflexivity. }
    rewrite <- Hnd. apply NoDup_nodup.
  - intros Hf Hnodup.
    destruct (timesForFrequency_hours f ltac:(lia))
      as [hs [Heq [Hlen [Hrange _]]]].
    assert (incl (timesForFrequency f) (map clockOfHour dayHours)) as Hincl.
    { rewrite Heq. intros x Hx. apply in_map_iff in Hx.
      destruct Hx as [h [<- Hh]]. apply in_map.
      apply dayHours_complete.
      rewrite Forall_forall in Hrange. now apply Hrange. }
    pose proof (NoDup_incl_length Hnodup Hincl) as Hle.
    rewrite timesForFrequency_length in Hle by lia.
    simpl in Hle. lia.
Qed.

Lemma calculated_times_distinct_up_to_13_witness :
  1 <= 9 <= 13 /\ NoDup (timesForFrequency 9) /\
  14 <= 14 /\ ~ NoDup (timesForFrequency 14).
Proof.
  assert (1 <= 9 <= 13) as H9 by lia.
  assert (14 <= 14) as H14 by lia.
  split; [exact H9|]. split.
  - exact (proj1 (calculated_times_distinct_up_to_13 9) H9).
  - split; [exact H14|].
    exact (proj2 (calculated_times_distinct_up_to_13 14) H14).
Defined.

(** ** Explicit times and time categories under the period *)








(** ** Time categories *)

Lemma prefix_spec (p s : string) :
  String.prefix p s = true <-> exists b, s = (p ++ b)%string.
Proof.
  revert s. induction p as [|a p IH]; intros s.
  - split; [intros _; now exists s|intros _; now destruct s].
  - destruct s as [|c s].
    + split; [discriminate|intros [b Hb]; discriminate].
    + rewrite prefix_cons. destruct (ascii_dec a c) as [->|Hne].
      * rewrite IH. split; intros [b Hb]; exists b.
        -- simpl. now rewrite Hb.
        -- simpl in Hb. now inversion Hb.
      * split; [discriminate|]. intros [b Hb]. simpl in Hb.
        inversion Hb. congruence.
Qed.

Lemma includes_nil (sub : string) :
  JS.includes "" sub = String.prefix sub "".
Proof. destruct sub; reflexivity. Qed.

Lemma includes_cons (c : ascii) (s sub : string) :
  JS.includes (String c s) sub =
  if String.prefix sub (String c s) then true else JS.includes s sub.
Proof. reflexivity. Qed.

Lemma includes_spec (s sub : string) :
  JS.includes s sub = true <-> occursIn sub s.
Proof.
  unfold occursIn. induction s as [|c s IH].
  - rewrite includes_nil, prefix_spec. split.
    + intros [b Hb]. now exists "", b.
    + intros [a [b Hab]]. destruct a; [now exists b|discriminate].
  - rewrite includes_cons.
    destruct (String.prefix sub (String c s)) eqn:Hp.
    + apply prefix_spec in Hp. destruct Hp as [b Hb].
      split; [intros _; now exists "", b|reflexivity].
    + rewrite IH. split.
      * intros [a [b Hab]]. exists (String c a), b. simpl. now rewrite Hab.
      * intros [a [b Hab]]. destruct a as [|c' a].
        -- assert (String.prefix sub (String c s) = true) as Hp';
             [|congruence].
           apply prefix_spec. now exists b.
        -- simpl in Hab. inversion Hab. now exists a, b.
Qed.

Lemma string_app_assoc (a b c : string) :
  ((a ++ b) ++ c = a ++ (b ++ c))%string.
Proof. induction a as [|x a IH]; simpl; [reflexivity|now rewrite IH]. Qed.

Lemma occursIn_longer (k k' s : string) :
  occursIn k k' -> occursIn k' s -> occursIn k s.
Proof.
  intros [a [b ->]] [a' [b' ->]]. exists (a' ++ a)%string, (b ++ b')%string.
  now rewrite !string_app_assoc.
Qed.

(** A time category is mapped by the keywords that occur in it, whatever
    the letter case: "morn" gives 08:00; otherwise "noon" gives 14:00;
    otherwise "even" or "night" gives 20:00; otherwise "bed" gives 22:00;
    a category with none of them is dropped. *)
Theorem categoryToTime_by_keyword (cat : string) :
  let c := JS.toLowerCase cat in
  (categoryToTime cat = Some "08:00" <-> occursIn "morn" c) /\
  (categoryToTime cat = Some "14:00" <->
   ~ occursIn "morn" c /\ occursIn "noon" c) /\
  (categoryToTime cat = Some "20:00" <->
   ~ occursIn "morn" c /\ ~ occursIn "noon" c /\
   (occursIn "even" c \/ occursIn "night" c)) /\
  (categoryToTime cat = Some "22:00" <->
   ~ occursIn "morn" c /\ ~ occursIn "noon" c /\
   ~ occursIn "even" c /\ ~ occursIn "night" c /\ occursIn "bed" c) /\
  (categoryToTime cat = None <->
   ~ occursIn "morn" c /\ ~ occursIn "noon" c /\
   ~ occursIn "even" c /\ ~ occursIn "night" c /\ ~ occursIn "bed" c).
Proof.
  intros c. unfold categoryToTime. fold c.
  assert (JS.includes c "afternoon" = true -> JS.includes c "noon" = true)
    as Hnoon.
  { rewrite !includes_spec. apply occursIn_longer. now exists "after", "". }
  assert (JS.includes c "bedtime" = true -> JS.includes c "bed" = true)
    as Hbed.
  { rewrite !includes_spec. apply occursIn_longer. now exists "", "time". }
  rewrite <- !includes_spec.
  destruct (JS.includes c "morn"), (JS.includes c "noon"),
    (JS.includes c "afternoon"), (JS.includes c "even"),
    (JS.includes c "night"), (JS.includes c "bed"),
    (JS.includes c "bedtime"); simpl;
    try (specialize (Hnoon eq_refl); discriminate);
    try (specialize (Hbed eq_refl); discriminate);
    clear Hnoon Hbed;
    repeat split; intros; try discriminate; try reflexivity;
      intuition congruence.
Qed.

(** ** The doses of a week *)






(** ** The summary of a calendar cell *)

Lemma fold_left_sum_shift {A : Type} (g : A -> Z) (l : list A) (a : Z) :
  fold_left (fun sum m => sum + g m) l a =
  a + fold_left (fun sum m => sum + g m) l 0.
Proof.
  revert a. induction l as [|x l IH]; intros a; simpl; [lia|].
  rewrite (IH (a + g x)), (IH (g x)). lia.
Qed.

Lemma totalDoses_at_least (l : list MedicationWithSchedule) :
  Forall (fun m => 1 <= timesLength m) l ->
  Z.of_nat (List.length l) <= totalDoses l.
Proof.
  unfold totalDoses. induction 1 as [|m l Hm _ IH]; simpl; [lia|].
  rewrite fold_left_sum_shift. lia.
Qed.

Lemma regular_schedule_has_times (c date : Date) (m : MedicationWithSchedule) :
  getMedicationSchedule c (statement m) date = Some (schedule m) ->
  truthyBool (asNeeded (schedule m)) = false ->
  1 <= timesLength m.
Proof.
  unfold getMedicationSchedule. intros H Hreg.
  destruct (scheduleLoop_times _ _ _ _ _ _ H) as [Has|[x [xs Hts]]].
  - rewrite Has in Hreg. discriminate.
  - unfold timesLength. rewrite Hts. simpl.
    destruct (Z.eqb_spec (Z.pos (Pos.of_succ_nat (List.length xs))) 0); lia.
Qed.

(** In a calendar cell the medications of the day split into the regular
    and the as-needed ones, and the dose total counts at least one dose for
    each regular medication: a day with a regular medication never shows a
    total of 0. *)
Theorem cell_regular_meds_have_doses (c : Date) (data : MedicationData)
    (date : Date) :
  let dayMeds := getDayMedications c (Some data) date in
  (List.length (regularMeds dayMeds) + List.length (asNeededMeds dayMeds)
   = List.length dayMeds)%nat /\
  Z.of_nat (List.length (regularMeds dayMeds))
  <= totalDoses (regularMeds dayMeds).
Proof.
  intros dayMeds. split.
  - unfold regularMeds, asNeededMeds.
    induction dayMeds as [|m l IH]; simpl; [reflexivity|].
    destruct (truthyBool (asNeeded (schedule m))); simpl; lia.
  - apply totalDoses_at_least.
    destruct (filterNonNull_map_schedule c date (medicationStatements data))
      as [_ Hall].
    change (Forall (fun m => getMedicationSchedule c (statement m) date =
                             Some (schedule m)) dayMeds) in Hall.
    unfold regularMeds.
    apply Forall_forall. intros m Hm. apply filter_In in Hm.
    destruct Hm as [Hin Hreg]. rewrite Forall_forall in Hall.
    apply (regular_schedule_has_times c date); [now apply Hall|].
    now destruct (truthyBool (asNeeded (schedule m))).
Qed.

(** ** The colours *)

Lemma getMedColor_nonneg (i : Z) :
  0 <= i -> getMedColor i = nth_error colors (Z.to_nat (i mod 6)).
Proof.
  intros Hi. unfold getMedColor.
  change (Z.of_nat (List.length colors)) with 6.
  rewrite remainder_nonneg by lia.
  pose proof (Z.mod_pos_bound i 6 ltac:(lia)).
  destruct (Z.ltb_spec (i mod 6) 0); [lia|reflexivity].
Qed.

(** Every medication index from 0 on has a colour, and two indices have the
    same colour exactly when they differ by a multiple of 6: the first six
    medications have six different colours, the seventh has the colour of
    the first. *)
Theorem getMedColor_same_colour (i j : Z) :
  0 <= i -> 0 <= j ->
  (exists col, getMedColor i = Some col /\ In col colors) /\
  (getMedColor i = getMedColor j <-> i mod 6 = j mod 6).
Proof.
  intros Hi Hj. rewrite !getMedColor_nonneg by assumption.
  pose proof (Z.mod_pos_bound i 6 ltac:(lia)) as Hbi.
  pose proof (Z.mod_pos_bound j 6 ltac:(lia)) as Hbj.
  assert (NoDup colors) as Hnd.
  { assert (nodup string_dec colors = colors) as <- by reflexivity.
    apply NoDup_nodup. }
  split.
  - destruct (nth_error colors (Z.to_nat (i mod 6))) as [col|] eqn:Hc.
    + exists col. split; [reflexivity|]. eapply nth_error_In; eassumption.
    + apply nth_error_None in Hc. simpl in Hc. lia.
  - split.
    + intros Heq.
      assert (Z.to_nat (i mod 6) = Z.to_nat (j mod 6)); [|lia].
      apply (proj1 (NoDup_nth_error colors) Hnd); [simpl; lia|assumption].
    + now intros ->.
Qed.

Lemma getMedColor_same_colour_witness :
  0 <= 1 /\ 0 <= 7 /\
  (exists col, getMedColor 1 = Some col /\ In col colors) /\
  (getMedColor 1 = getMedColor 7 <-> 1 mod 6 = 7 mod 6).
Proof.
  assert (0 <= 1) as H1 by lia. assert (0 <= 7) as H7 by lia.
  split; [exact H1|]. split; [exact H7|].
  exact (getMedColor_same_colour 1 7 H1 H7).
Defined.

(** ** The earlier copies *)

(** The copy with the test [<=] never returns null: whatever the medication
    and the date, it gives a schedule, so every medication is listed on
    every day. *)
Theorem inclusive_copy_never_null (c : Date)
    (med : Legacy.MedicationStatement) (date : Date) :
  Legacy.Inclusive.getMedicationSchedule c med date <> None.
Proof.
  unfold Legacy.Inclusive.getMedicationSchedule. cbv zeta.
  generalize ((getTime date - getTime (setHoursZero c)) / msPerDay).
  intros d. generalize 0 (@nil string).
  induction (Legacy.timingSequence med) as [|t l IH]; intros dsf ts; simpl.
  - discriminate.
  - unfold Legacy.Inclusive.loopBody.
    destruct (JS.truthyZ (Legacy.duration t)
              && (d <=? JS.orZ (Legacy.duration t) 0 + dsf)); [apply IH|].
    destruct (negb (JS.truthyZ (Legacy.duration t))); [discriminate|].
    destruct (Legacy.isAsNeeded t); [discriminate|apply IH].
Qed.

(** When the first timing has no duration (absent or 0), the copy with the
    test [<=] gives the single time 08:00 on every date, whatever the
    frequency and the as-needed mark are, and the copy with the test [>=]
    gives null on every date. *)
Theorem open_ended_first_timing_in_the_copies (c : Date)
    (t : Legacy.Timing) (rest : list Legacy.Timing) (date : Date) :
  JS.truthyZ (Legacy.duration t) = false ->
  Legacy.Inclusive.getMedicationSchedule c (Legacy.statementOf (t :: rest))
                                         date =
  Some (Legacy.timesSchedule ["08:00"]) /\
  Legacy.Exclusive.getMedicationSchedule c (Legacy.statementOf (t :: rest))
                                         date = None.
Proof.
  intros Hdur.
  unfold Legacy.Inclusive.getMedicationSchedule,
    Legacy.Exclusive.getMedicationSchedule. cbv zeta. simpl.
  unfold Legacy.Inclusive.loopBody, Legacy.Exclusive.loopBody.
  rewrite Hdur. simpl. split; reflexivity.
Qed.

Lemma exclusive_loop_past (d : Z) (l : list Legacy.Timing) :
  forall dsf ts,
    Forall (fun t => 0 < JS.orZ (Legacy.duration t) 0) l ->
    dsf + fold_right (fun t acc => JS.orZ (Legacy.duration t) 0 + acc) 0 l
    <= d ->
    Legacy.Exclusive.loop d dsf ts l = Some (Legacy.timesSchedule ts).
Proof.
  induction l as [|t l IH]; intros dsf ts Hpos Hd; simpl in *;
    [reflexivity|].
  inversion Hpos as [|? ? Ht Hl]; subst.
  assert (0 <= fold_right (fun t acc => JS.orZ (Legacy.duration t) 0 + acc)
                          0 l) as Hnn.
  { clear - Hl. induction Hl; simpl; lia. }
  unfold Legacy.Exclusive.loopBody.
  assert (JS.truthyZ (Legacy.duration t) = true) as ->.
  { unfold JS.truthyZ, JS.orZ in *. destruct (Legacy.duration t) as [n|];
      [|lia]. destruct (Z.eqb_spec n 0); [lia|reflexivity]. }
  destruct (Z.leb_spec (JS.orZ (Legacy.duration t) 0 + dsf) d); [|lia].
  simpl. apply IH; [assumption|lia].
Qed.

Lemma fold_left_durations (l : list Legacy.Timing) (a : Z) :
  fold_left (fun sum timing => sum + JS.orZ (Legacy.duration timing) 0) l a =
  a + fold_right (fun t acc => JS.orZ (Legacy.duration t) 0 + acc) 0 l.
Proof.
  revert a. induction l as [|t l IH]; intros a; simpl; [lia|].
  rewrite IH. lia.
Qed.

(** From the day that [getDaysUntilRunOut] gives on, the copy with the test
    [>=] returns a schedule with an empty list of times (not null), when
    every timing has a positive duration: the medication stays listed, with
    no dose. *)
Theorem exclusive_copy_after_run_out (c : Date)
    (med : Legacy.MedicationStatement) (date : Date) :
  Forall (fun t => 0 < JS.orZ (Legacy.duration t) 0)
         (Legacy.timingSequence med) ->
  LegacyCallers.getDaysUntilRunOut med <= daysBetween (setHoursZero c) date ->
  Legacy.Exclusive.getMedicationSchedule c med date =
  Some (Legacy.timesSchedule []).
Proof.
  intros Hpos Hd. unfold Legacy.Exclusive.getMedicationSchedule. cbv zeta.
  rewrite legacy_days. apply exclusive_loop_past; [assumption|].
  unfold LegacyCallers.getDaysUntilRunOut in Hd.
  rewrite fold_left_durations in Hd. exact Hd.
Qed.

Lemma exclusive_copy_after_run_out_witness :
  Forall (fun t => 0 < JS.orZ (Legacy.duration t) 0)
         (Legacy.timingSequence
            (Legacy.statementOf [Legacy.courseOf 2 7; Legacy.courseOf 1 3]))
  /\
  LegacyCallers.getDaysUntilRunOut
    (Legacy.statementOf [Legacy.courseOf 2 7; Legacy.courseOf 1 3])
  <= daysBetween (setHoursZero 0) (10 * msPerDay) /\
  Legacy.Exclusive.getMedicationSchedule 0
    (Legacy.statementOf [Legacy.courseOf 2 7; Legacy.courseOf 1 3])
    (10 * msPerDay) = Some (Legacy.timesSchedule []).
Proof.
  assert (Forall (fun t => 0 < JS.orZ (Legacy.duration t) 0)
            (Legacy.timingSequence
               (Legacy.statementOf
                  [Legacy.courseOf 2 7; Legacy.courseOf 1 3]))) as Hpos
    by (repeat constructor).
  assert (LegacyCallers.getDaysUntilRunOut
            (Legacy.statementOf [Legacy.courseOf 2 7; Legacy.courseOf 1 3])
          <= daysBetween (setHoursZero 0) (10 * msPerDay)) as Hd
    by (vm_compute; congruence).
  split; [exact Hpos|]. split; [exact Hd|].
  exact (exclusive_copy_after_run_out 0 _ (10 * msPerDay) Hpos Hd).
Defined.

Lemma open_ended_first_timing_in_the_copies_witness :
  JS.truthyZ (Legacy.duration (Legacy.courseOf 3 0)) = false /\
  Legacy.Inclusive.getMedicationSchedule 0
    (Legacy.statementOf (Legacy.courseOf 3 0 :: [])) (5 * msPerDay) =
  Some (Legacy.timesSchedule ["08:00"]) /\
  Legacy.Exclusive.getMedicationSchedule 0
    (Legacy.statementOf (Legacy.courseOf 3 0 :: [])) (5 * msPerDay) = None.
Proof.
  split; [reflexivity|].
  exact (open_ended_first_timing_in_the_copies 0 (Legacy.courseOf 3 0) []
           (5 * msPerDay) eq_refl).
Defined.

Lemma pushTimes_app (f : Z) (ts : list string) :
  Legacy.pushTimes f ts = ts ++ Legacy.pushTimes f [].
Proof.
  unfold Legacy.pushTimes.
  destruct (f =? 1), (f =? 2), (f =? 3), (f =? 4);
    try reflexivity; now rewrite app_nil_r.
Qed.

Lemma exclusive_loop_merge (d : Z) (l : list Legacy.Timing) :
  forall ts,
    Forall (fun t => JS.truthyZ (Legacy.duration t) = true /\
                     d < JS.orZ (Legacy.duration t) 0 /\
                     Legacy.isAsNeeded t = false) l ->
    Legacy.Exclusive.loop d 0 ts l =
    Some (Legacy.timesSchedule (ts ++ flat_map legacyTimes l)).
Proof.
  induction l as [|t l IH]; intros ts Hall; simpl.
  - now rewrite app_nil_r.
  - inversion Hall as [|? ? [Htr [Hd Hprn]] Hl]; subst.
    unfold Legacy.Exclusive.loopBody. rewrite Htr, Hprn.
    destruct (Z.leb_spec (JS.orZ (Legacy.duration t) 0 + 0) d); [lia|].
    simpl. rewrite IH by assumption.
    rewrite pushTimes_app. unfold legacyTimes. now rewrite <- app_assoc.
Qed.

Lemma inclusive_loop_merge (d : Z) (l : list Legacy.Timing) :
  forall ts,
    Forall (fun t => JS.truthyZ (Legacy.duration t) = true /\
                     JS.orZ (Legacy.duration t) 0 < d /\
                     Legacy.isAsNeeded t = false) l ->
    Legacy.Inclusive.loop d 0 ts l =
    Some (Legacy.timesSchedule (ts ++ flat_map legacyTimes l)).
Proof.
  induction l as [|t l IH]; intros ts Hall; simpl.
  - now rewrite app_nil_r.
  - inversion Hall as [|? ? [Htr [Hd Hprn]] Hl]; subst.
    unfold Legacy.Inclusive.loopBody. rewrite Htr, Hprn.
    destruct (Z.leb_spec d (JS.orZ (Legacy.duration t) 0 + 0)); [lia|].
    simpl. rewrite IH by assumption.
    rewrite pushTimes_app. unfold legacyTimes. now rewrite <- app_assoc.
Qed.

(** The earlier copies do not stop at the timing that holds the date: a
    timing that is not passed over adds its times and the loop goes on.  On
    a day offset below the duration of every timing (none as-needed) the
    copy with the test [>=] returns the times of all timings, one list
    after the other; the copy with the test [<=] does so on a day offset
    above the duration of every timing. *)
Theorem copies_merge_the_times_of_all_timings (c : Date)
    (med : Legacy.MedicationStatement) (date : Date) :
  (Forall (fun t => JS.truthyZ (Legacy.duration t) = true /\
                    daysBetween (setHoursZero c) date
                    < JS.orZ (Legacy.duration t) 0 /\
                    Legacy.isAsNeeded t = false)
          (Legacy.timingSequence med) ->
   Legacy.Exclusive.getMedicationSchedule c med date =
   Some (Legacy.timesSchedule
           (flat_map legacyTimes (Legacy.timingSequence med)))) /\
  (Forall (fun t => JS.truthyZ (Legacy.duration t) = true /\
                    JS.orZ (Legacy.duration t) 0
                    < daysBetween (setHoursZero c) date /\
                    Legacy.isAsNeeded t = false)
          (Legacy.timingSequence med) ->
   Legacy.Inclusive.getMedicationSchedule c med date =
   Some (Legacy.timesSchedule
           (flat_map legacyTimes (Legacy.timingSequence med)))).
Proof.
  split; intros Hall.
  - unfold Legacy.Exclusive.getMedicationSchedule. cbv zeta.
    rewrite legacy_days. now rewrite exclusive_loop_merge.
  - unfold Legacy.Inclusive.getMedicationSchedule. cbv zeta.
    rewrite legacy_days. now rewrite inclusive_loop_merge.
Qed.

Lemma copies_merge_the_times_of_all_timings_witness :
  Forall (fun t => JS.truthyZ (Legacy.duration t) = true /\
                   daysBetween (setHoursZero 0) 0
                   < JS.orZ (Legacy.duration t) 0 /\
                   Legacy.isAsNeeded t = false)
         (Legacy.timingSequence
            (Legacy.statementOf [Legacy.courseOf 1 7; Legacy.courseOf 2 3]))
  /\
  Legacy.Exclusive.getMedicationSchedule 0
    (Legacy.statementOf [Legacy.courseOf 1 7; Legacy.courseOf 2 3]) 0 =
  Some (Legacy.timesSchedule ["08:00"; "08:00"; "20:00"]).
Proof.
  assert (Forall (fun t => JS.truthyZ (Legacy.duration t) = true /\
                           daysBetween (setHoursZero 0) 0
                           < JS.orZ (Legacy.duration t) 0 /\
                           Legacy.isAsNeeded t = false)
            (Legacy.timingSequence
               (Legacy.statementOf
                  [Legacy.courseOf 1 7; Legacy.courseOf 2 3]))) as Hall
    by (repeat constructor).
  split; [exact Hall|].
  exact (proj1 (copies_merge_the_times_of_all_timings 0
                  (Legacy.statementOf
                     [Legacy.courseOf 1 7; Legacy.courseOf 2 3]) 0) Hall).
Defined.

(** ** The first version *)

(** The first version returns null exactly from the day that
    [getDaysUntilRunOut] gives on; a medication without duration never
    runs out. *)
Theorem single_null_iff_run_out (c : Date) (med : Single.MedicationStatement)
    (date : Date) :
  Single.getMedicationSchedule c med date = None <->
  exists n, Single.getDaysUntilRunOut med = Some n /\
            n <= daysBetween (setHoursZero c) date.
Proof.
  unfold Single.getMedicationSchedule, Single.getDaysUntilRunOut. cbv zeta.
  rewrite legacy_days.
  generalize (daysBetween (setHoursZero c) date). intros d.
  unfold JS.truthyZ, JS.orZ.
  destruct (Single.duration (Single.timing med)) as [n|]; simpl.
  - destruct (Z.eqb_spec n 0); simpl.
    + destruct (Single.isAsNeeded (Single.timing med));
        (split; [discriminate|intros [m [Hm _]]; discriminate]).
    + destruct (Z.leb_spec n d).
      * split; [intros _; now exists n|reflexivity].
      * destruct (Single.isAsNeeded (Single.timing med));
          (split; [discriminate|]); intros [m [Hm Hle]];
          inversion Hm; lia.
  - destruct (Single.isAsNeeded (Single.timing med));
      (split; [discriminate|intros [m [Hm _]]; discriminate]).
Qed.

(** In the first version a schedule that is not as-needed has as many times
    as the frequency when the frequency is 1, 2, 3 or 4 (1 when absent or
    0), and no time at all for any other frequency. *)
Theorem single_times_by_frequency (c : Date)
    (med : Single.MedicationStatement) (date : Date)
    (s : Legacy.MedicationSchedule) :
  Single.getMedicationSchedule c med date = Some s ->
  Legacy.asNeeded s = None ->
  exists ts,
    Legacy.times s = Some ts /\
    List.length ts =
    let f := JS.orZ (Single.frequency (Single.timing med)) 1 in
    if (1 <=? f) && (f <=? 4) then Z.to_nat f else 0%nat.
Proof.
  unfold Single.getMedicationSchedule. cbv zeta.
  destruct (_ && _); [discriminate|].
  destruct (Single.isAsNeeded (Single.timing med)).
  - intros H Has. inversion H. subst. discriminate.
  - intros H _. inversion H. subst. clear H.
    eexists. split; [reflexivity|].
    generalize (JS.orZ (Single.frequency (Single.timing med)) 1). intros f.
    unfold Legacy.pushTimes.
    destruct (Z.eqb_spec f 1); [subst; reflexivity|].
    destruct (Z.eqb_spec f 2); [subst; reflexivity|].
    destruct (Z.eqb_spec f 3); [subst; reflexivity|].
    destruct (Z.eqb_spec f 4); [subst; reflexivity|].
    destruct (Z.leb_spec 1 f), (Z.leb_spec f 4); simpl; try reflexivity; lia.
Qed.

Lemma single_times_by_frequency_witness :
  Single.getMedicationSchedule 0 (singleCourse (Some 5) (Some 10)) 0 =
  Some (Legacy.timesSchedule []) /\
  Legacy.asNeeded (Legacy.timesSchedule []) = None /\
  exists ts,
    Legacy.times (Legacy.timesSchedule []) = Some ts /\
    List.length ts = 0%nat.
Proof.
  split; [reflexivity|]. split; [reflexivity|].
  exact (single_times_by_frequency 0 (singleCourse (Some 5) (Some 10)) 0
           _ eq_refl eq_refl).
Defined.

(** ** The timing block of a card *)

(** In a timing block the note "Some timing information is missing" is
    shown exactly when the frequency is absent or not positive (period,
    specific times and duration play no part); the frequency badge is
    hidden exactly when the period text reads "Unknown timing"; and
    whenever the badge is hidden the note is shown. *)
Theorem timing_block_indicators (t : Timing) :
  (showsMissingInfo t = true <->
   match frequency t with Some f => f <= 0 | None => True end) /\
  (frequencyBadgeLabel (frequency t) = None <->
   periodDisplayText t = "Unknown timing") /\
  (frequencyBadgeLabel (frequency t) = None -> showsMissingInfo t = true).
Proof.
  assert (showsMissingInfo t = negb (hasFrequency t)) as Hshow.
  { unfold showsMissingInfo, hasAllInfo.
    destruct (hasFrequency t); [|reflexivity]. now rewrite andb_false_r. }
  assert (frequencyBadgeLabel (frequency t) = None <->
          JS.truthyZ (frequency t) = false) as Hbadge.
  { unfold frequencyBadgeLabel.
    destruct (JS.truthyZ (frequency t)); simpl; [|tauto].
    destruct (_ =? 1); [split; discriminate|].
    destruct (_ =? 2); split; discriminate. }
  split; [|split].
  - rewrite Hshow. unfold hasFrequency.
    destruct (frequency t) as [f|]; [|tauto].
    destruct (Z.ltb_spec 0 f); simpl; split; intros; try discriminate;
      try reflexivity; lia.
  - rewrite Hbadge. unfold periodDisplayText. cbv zeta.
    destruct (JS.truthyZ (frequency t)); simpl; [|tauto].
    destruct (_ && _); [split; discriminate|].
    destruct (_ =? 1); split; discriminate.
  - rewrite Hbadge, Hshow. unfold JS.truthyZ, hasFrequency.
    destruct (frequency t) as [f|]; [|reflexivity].
    destruct (Z.eqb_spec f 0); [subst; reflexivity|discriminate].
Qed.

Lemma timing_block_indicators_witness :
  frequencyBadgeLabel
    (frequency (scheduledTiming 1 None (Some 0) None None None None
                                None None)) = None /\
  showsMissingInfo (scheduledTiming 1 None (Some 0) None None None None
                                    None None) = true.
Proof.
  split; [reflexivity|].
  exact (proj2 (proj2 (timing_block_indicators
                         (scheduledTiming 1 None (Some 0) None None None None
                                          None None))) eq_refl).
Defined.

(** ** The calendar *)

Lemma daysFromCivil_linear (y m d : Z) :
  Calendar.daysFromCivil y m d = Calendar.daysFromCivil y m 1 + d - 1.
Proof. unfold Calendar.daysFromCivil. cbv zeta. lia. Qed.

Lemma daysInMonth_range (y m : Z) : 28 <= Calendar.daysInMonth y m <= 31.
Proof.
  unfold Calendar.daysInMonth.
  destruct (m =? 2); [destruct (Calendar.isLeapYear y); lia|].
  destruct ((m =? 4) || (m =? 6) || (m =? 9) || (m =? 11)); lia.
Qed.

(** The year of a day of the 400-year cycle. *)
Lemma year_of_era (doe : Z) :
  0 <= doe <= 146096 ->
  let yoe := (doe - doe / 1460 + doe / 36524 - doe / 146096) / 365 in
  0 <= yoe <= 399 /\
  365 * yoe + yoe / 4 - yoe / 100 <= doe /\
  (yoe < 399 ->
   doe < 365 * (yoe + 1) + (yoe + 1) / 4 - (yoe + 1) / 100) /\
  doe - (365 * yoe + yoe / 4 - yoe / 100) <= 365.
Proof. intros Hdoe. cbv zeta. Z.div_mod_to_equations. lia. Qed.

(** The day of a year held by the cycle lies in that year. *)
Lemma year_of_day (yoe doy : Z) :
  0 <= yoe <= 399 -> 0 <= doy ->
  (yoe < 399 ->
   365 * yoe + yoe / 4 - yoe / 100 + doy
   < 365 * (yoe + 1) + (yoe + 1) / 4 - (yoe + 1) / 100) ->
  doy <= 365 ->
  let doe := yoe * 365 + yoe / 4 - yoe / 100 + doy in
  0 <= doe <= 146096 /\
  (doe - doe / 1460 + doe / 36524 - doe / 146096) / 365 = yoe.
Proof. intros Hy Hd Hin Hmax. cbv zeta. Z.div_mod_to_equations. lia. Qed.

(** The month of a day of the year, the year starting in March. *)
Lemma month_of_doy (doy : Z) :
  0 <= doy <= 365 ->
  let mp := (5 * doy + 2) / 153 in
  0 <= mp <= 11 /\
  (153 * mp + 2) / 5 <= doy < (153 * (mp + 1) + 2) / 5.
Proof. intros Hdoy. cbv zeta. Z.div_mod_to_equations. lia. Qed.

Lemma doy_of_month (mp doy : Z) :
  0 <= mp <= 11 ->
  (153 * mp + 2) / 5 <= doy < (153 * (mp + 1) + 2) / 5 ->
  (5 * doy + 2) / 153 = mp.
Proof. intros Hmp Hdoy. Z.div_mod_to_equations. lia. Qed.

Lemma month_cases (m : Z) :
  1 <= m <= 12 ->
  m = 1 \/ m = 2 \/ m = 3 \/ m = 4 \/ m = 5 \/ m = 6 \/ m = 7 \/ m = 8 \/
  m = 9 \/ m = 10 \/ m = 11 \/ m = 12.
Proof. lia. Qed.

(** Outside February the length of a month is the distance of the month
    starts within the year. *)
Lemma month_length (y m : Z) :
  1 <= m <= 12 -> m <> 2 ->
  (153 * ((if 2 <? m then m - 3 else m + 9) + 1) + 2) / 5
  - (153 * (if 2 <? m then m - 3 else m + 9) + 2) / 5
  = Calendar.daysInMonth y m.
Proof.
  intros Hm Hne.
  destruct (month_cases m Hm)
    as [-> | [-> | [-> | [-> | [-> | [-> | [-> | [-> | [-> | [-> | [-> | ->]]]]]]]]]]];
    try reflexivity; congruence.
Qed.

Lemma leap_by_division (t : Z) :
  1 <= t <= 400 ->
  (t / 4 - (t - 1) / 4 = if t mod 4 =? 0 then 1 else 0) /\
  (t / 100 - (t - 1) / 100 = if t mod 100 =? 0 then 1 else 0) /\
  (t mod 100 = 0 -> t mod 4 = 0) /\
  (t mod 400 = 0 <-> t = 400).
Proof.
  intros Ht. repeat split.
  - destruct (Z.eqb_spec (t mod 4) 0); Z.div_mod_to_equations; lia.
  - destruct (Z.eqb_spec (t mod 100) 0); Z.div_mod_to_equations; lia.
  - intros H. Z.div_mod_to_equations. lia.
  - intros H. Z.div_mod_to_equations. lia.
  - intros ->. reflexivity.
Qed.

Lemma mod_era (t era : Z) :
  (t + era * 400) mod 4 = t mod 4 /\
  (t + era * 400) mod 100 = t mod 100 /\
  (t + era * 400) mod 400 = t mod 400.
Proof.
  repeat split.
  - replace (era * 400) with (era * 100 * 4) by lia. apply Z.mod_add. lia.
  - replace (era * 400) with (era * 4 * 100) by lia. apply Z.mod_add. lia.
  - apply Z.mod_add. lia.
Qed.

(** The length of February closes the year that starts in March. *)
Lemma february_length (y era yoe : Z) :
  y - 1 = yoe + era * 400 -> 0 <= yoe <= 399 ->
  (yoe < 399 ->
   365 * (yoe + 1) + (yoe + 1) / 4 - (yoe + 1) / 100
   - (365 * yoe + yoe / 4 - yoe / 100) = 337 + Calendar.daysInMonth y 2) /\
  (yoe = 399 -> Calendar.daysInMonth y 2 = 29).
Proof.
  intros Hy Hyoe. unfold Calendar.daysInMonth, Calendar.isLeapYear.
  change (2 =? 2) with true. cbv iota.
  replace y with (yoe + 1 + era * 400) by lia.
  destruct (mod_era (yoe + 1) era) as [-> [-> ->]].
  destruct (leap_by_division (yoe + 1) ltac:(lia)) as [H4 [H100 [Hdiv H400]]].
  replace (yoe + 1 - 1) with yoe in * by lia.
  destruct (Z.eqb_spec ((yoe + 1) mod 4) 0) as [E4|E4],
    (Z.eqb_spec ((yoe + 1) mod 100) 0) as [E100|E100],
    (Z.eqb_spec ((yoe + 1) mod 400) 0) as [E400|E400];
    cbn [andb orb negb]; split; intros Hc;
    try (apply H400 in E400); try (specialize (Hdiv E100)); try lia;
    try (exfalso; apply E400, H400; lia).
Qed.

Lemma daysFromCivil_parts (y m d : Z) :
  let y' := if m <=? 2 then y - 1 else y in
  let era := y' / 400 in
  let yoe := y' - era * 400 in
  let mp := if 2 <? m then m - 3 else m + 9 in
  Calendar.daysFromCivil y m d =
  era * 146097
  + (yoe * 365 + yoe / 4 - yoe / 100 + ((153 * mp + 2) / 5 + d - 1))
  - 719468 /\
  0 <= yoe <= 399 /\ y' = yoe + era * 400.
Proof.
  cbv zeta. split; [reflexivity|].
  generalize (if m <=? 2 then y - 1 else y). intros y'.
  Z.div_mod_to_equations. lia.
Qed.

(** The date of a day given by its cycle, its year in the cycle, its month
    counted from March and its day of the month. *)
Lemma civilFromDays_parts (era yoe mp j : Z) :
  0 <= yoe <= 399 -> 0 <= mp <= 11 ->
  (153 * mp + 2) / 5 <= (153 * mp + 2) / 5 + j - 1
  < (153 * (mp + 1) + 2) / 5 ->
  (153 * mp + 2) / 5 + j - 1 <= 365 ->
  (yoe < 399 ->
   365 * yoe + yoe / 4 - yoe / 100 + ((153 * mp + 2) / 5 + j - 1)
   < 365 * (yoe + 1) + (yoe + 1) / 4 - (yoe + 1) / 100) ->
  Calendar.civilFromDays
    (era * 146097
     + (yoe * 365 + yoe / 4 - yoe / 100 + ((153 * mp + 2) / 5 + j - 1))
     - 719468) =
  (if (if mp <? 10 then mp + 3 else mp - 9) <=? 2
   then yoe + era * 400 + 1 else yoe + era * 400,
   if mp <? 10 then mp + 3 else mp - 9, j).
Proof.
  intros Hyoe Hmp Hmonth Hmax Hyear.
  set (doy := (153 * mp + 2) / 5 + j - 1) in *.
  assert (0 <= doy) as Hdoy
    by (pose proof (Z.div_pos (153 * mp + 2) 5 ltac:(lia) ltac:(lia)); lia).
  destruct (year_of_day yoe doy Hyoe Hdoy Hyear Hmax) as [Hdoe Hy].
  set (doe := yoe * 365 + yoe / 4 - yoe / 100 + doy) in *.
  unfold Calendar.civilFromDays. cbv zeta.
  replace (era * 146097 + doe - 719468 + 719468) with (doe + era * 146097)
    by lia.
  rewrite Z.div_add by lia. rewrite (Z.div_small doe) by lia.
  replace (doe + era * 146097 - (0 + era) * 146097) with doe by lia.
  rewrite Hy.
  replace (doe - (365 * yoe + yoe / 4 - yoe / 100)) with doy
    by (unfold doe; lia).
  rewrite (doy_of_month mp doy Hmp Hmonth).
  replace (doy - (153 * mp + 2) / 5 + 1) with j by (unfold doy; lia).
  reflexivity.
Qed.

Lemma month_starts (y m : Z) :
  1 <= m <= 12 ->
  let mp := if 2 <? m then m - 3 else m + 9 in
  0 <= mp <= 11 /\
  (if mp <? 10 then mp + 3 else mp - 9) = m /\
  0 <= (153 * mp + 2) / 5 /\
  (m <> 2 ->
   (153 * (mp + 1) + 2) / 5 - (153 * mp + 2) / 5 = Calendar.daysInMonth y m /\
   (153 * (mp + 1) + 2) / 5 <= 337) /\
  (m = 2 -> (153 * mp + 2) / 5 = 337 /\ (153 * (mp + 1) + 2) / 5 = 367).
Proof.
  intros Hm.
  destruct (month_cases m Hm)
    as [-> | [-> | [-> | [-> | [-> | [-> | [-> | [-> | [-> | [-> | [-> | ->]]]]]]]]]]];
    vm_compute; repeat split; congruence.
Qed.

(** Every date of the calendar is the date of its day number. *)
Lemma month_facts (y m : Z) :
  1 <= m <= 12 ->
  (forall j, 1 <= j <= Calendar.daysInMonth y m ->
             Calendar.civilFromDays (Calendar.daysFromCivil y m 1 + j - 1)
             = (y, m, j)) /\
  (let '(yn, mn) := Calendar.nextMonth y m in
   Calendar.daysFromCivil yn mn 1 =
   Calendar.daysFromCivil y m 1 + Calendar.daysInMonth y m).
Proof.
  intros Hm. split.
  - intros j Hj. rewrite <- daysFromCivil_linear.
    destruct (daysFromCivil_parts y m j) as [-> [Hyoe Hy']].
    destruct (month_starts y m Hm) as [Hmp [Hback [Hstart [Hspan Hfeb]]]].
    assert (m = 2 ->
            (if m <=? 2 then y - 1 else y) - 1 + 1 = y - 1) as Hfeby
      by (intros ->; simpl; lia).
    assert ((if m <=? 2 then (if m <=? 2 then y - 1 else y) + 1
             else (if m <=? 2 then y - 1 else y)) = y) as Hyback
      by (destruct (m <=? 2); lia).
    revert Hyoe Hy' Hmp Hback Hstart Hspan Hfeb Hfeby Hyback. cbv zeta.
    generalize (if 2 <? m then m - 3 else m + 9). intros mp.
    generalize (if m <=? 2 then y - 1 else y). intros y'.
    intros Hyoe Hy' Hmp Hback Hstart Hspan Hfeb Hfeby Hyback.
    set (era := y' / 400) in *. set (yoe := y' - era * 400) in *.
    pose proof (daysInMonth_range y m) as Hlen.
    assert (m = 2 -> Calendar.daysInMonth y m <= 29) as Hfeblen
      by (intros ->; unfold Calendar.daysInMonth; change (2 =? 2) with true;
          cbv iota; destruct (Calendar.isLeapYear y); lia).
    assert (365 <= 365 * (yoe + 1) + (yoe + 1) / 4 - (yoe + 1) / 100
                   - (365 * yoe + yoe / 4 - yoe / 100)) as Hyear
      by (Z.div_mod_to_equations; lia).
    rewrite civilFromDays_parts; try assumption.
    + rewrite Hback. f_equal. f_equal.
      replace (yoe + era * 400) with y' by lia.
      replace (y' + 1) with (y' + 1) by reflexivity.
      exact Hyback.
    + destruct (Z.eq_dec m 2) as [E|E];
        [destruct (Hfeb E); specialize (Hfeblen E)|destruct (Hspan E)]; lia.
    + destruct (Z.eq_dec m 2) as [E|E];
        [destruct (Hfeb E); specialize (Hfeblen E)|destruct (Hspan E)]; lia.
    + intros Hlt. destruct (Z.eq_dec m 2) as [E|E].
      * destruct (Hfeb E) as [H337 _]. specialize (Hfeby E).
        destruct (february_length y era yoe ltac:(lia) Hyoe) as [Hl _].
        specialize (Hl Hlt). rewrite E in Hj. lia.
      * destruct (Hspan E). lia.
  - unfold Calendar.nextMonth.
    destruct (daysFromCivil_parts y m 1) as [-> [Hyoe Hy']].
    destruct (Z.eqb_spec m 12) as [->|Hne12].
    + destruct (daysFromCivil_parts (y + 1) 1 1) as [-> [Hyoe2 Hy2]].
      simpl in *. replace (y + 1 - 1) with y in * by lia.
      change (Calendar.daysInMonth y 12) with 31.
      change ((153 * 9 + 2) / 5) with 275.
      change ((153 * 10 + 2) / 5) with 306. lia.
    + destruct (daysFromCivil_parts y (m + 1) 1) as [-> [Hyoe2 Hy2]].
      destruct (Z.eq_dec m 2) as [->|Hne2].
      * simpl in *.
        change ((153 * 11 + 2) / 5) with 337.
        change ((153 * 0 + 2) / 5) with 0.
        set (era := (y - 1) / 400) in *. set (era2 := y / 400) in *.
        destruct (february_length y era ((y - 1) - era * 400)
                    ltac:(lia) Hyoe) as [Hfeb Hfeb399].
        destruct (Z.eq_dec ((y - 1) - era * 400) 399) as [H399|Hn399].
        -- specialize (Hfeb399 H399).
           assert (era2 = era + 1) as Hera2
             by (unfold era2; symmetry;
                 apply (Z.div_unique y 400 (era + 1) 0); lia).
           rewrite Hfeb399, Hera2, H399.
           replace (y - (era + 1) * 400) with 0 by lia.
           change (0 / 4) with 0. change (0 / 100) with 0.
           change (399 / 4) with 99. change (399 / 100) with 3. lia.
        -- specialize (Hfeb ltac:(lia)).
           assert (era2 = era) as Hera2
             by (unfold era2; symmetry;
                 apply (Z.div_unique y 400 era ((y - 1) - era * 400 + 1));
                 lia).
           rewrite Hera2.
           replace (y - era * 400) with ((y - 1) - era * 400 + 1) by lia.
           lia.
      * pose proof (month_length y m Hm Hne2) as Hlen.
        assert ((if m + 1 <=? 2 then y - 1 else y)
                = (if m <=? 2 then y - 1 else y) /\
                (if 2 <? m + 1 then m + 1 - 3 else m + 1 + 9)
                = (if 2 <? m then m - 3 else m + 9) + 1) as [Hsame Hmp1].
        { destruct (month_cases m Hm)
            as [-> | [-> | [-> | [-> | [-> | [-> | [-> | [-> | [-> | [-> | [-> | ->]]]]]]]]]]];
            simpl; split; try reflexivity; congruence. }
        rewrite Hsame, Hmp1. lia.
Qed.

(** Every day number has a year, a month from 1 to 12 and a day within the
    length of that month, and is the day number of that date. *)
Lemma civil_roundtrip (z y m d : Z) :
  Calendar.civilFromDays z = (y, m, d) ->
  Calendar.daysFromCivil y m d = z /\
  1 <= m <= 12 /\ 1 <= d <= Calendar.daysInMonth y m.
Proof.
  intros Hc.
  assert (exists era doe, z = era * 146097 + doe - 719468 /\
                          0 <= doe <= 146096) as [era [doe [-> Hdoe]]].
  { exists ((z + 719468) / 146097),
           (z + 719468 - (z + 719468) / 146097 * 146097).
    split; [lia|]. Z.div_mod_to_equations. lia. }
  destruct (year_of_era doe Hdoe) as [Hyoe [Hlow [Hhigh Hdoy]]].
  cbv zeta in *.
  set (yoe := (doe - doe / 1460 + doe / 36524 - doe / 146096) / 365) in *.
  set (doy := doe - (365 * yoe + yoe / 4 - yoe / 100)).
  destruct (month_of_doy doy ltac:(unfold doy; lia)) as [Hmp Hmonth].
  cbv zeta in *. set (mp := (5 * doy + 2) / 153) in *.
  set (j := doy - (153 * mp + 2) / 5 + 1).
  assert (doe = yoe * 365 + yoe / 4 - yoe / 100 + ((153 * mp + 2) / 5 + j - 1))
    as Hdoe' by (unfold j, doy; lia).
  rewrite Hdoe' in Hc.
  rewrite civilFromDays_parts in Hc;
    [|assumption|assumption|unfold j; lia|unfold j, doy; lia
     |intros Hlt; specialize (Hhigh Hlt); unfold j, doy; lia].
  set (m' := if mp <? 10 then mp + 3 else mp - 9) in *.
  assert (1 <= m' <= 12) as Hm'
    by (unfold m'; destruct (Z.ltb_spec mp 10); lia).
  assert ((if 2 <? m' then m' - 3 else m' + 9) = mp) as Hmpback.
  { unfold m'. destruct (Z.ltb_spec mp 10);
      [destruct (Z.ltb_spec 2 (mp + 3))|destruct (Z.ltb_spec 2 (mp - 9))];
      lia. }
  injection Hc as Hy Hm Hd. rewrite <- Hm, <- Hd. clear Hm Hd.
  assert ((if m' <=? 2 then y - 1 else y) = yoe + era * 400) as Hy'.
  { rewrite <- Hy. destruct (m' <=? 2); lia. }
  split; [|split; [lia|split; [unfold j; lia|]]].
  - destruct (daysFromCivil_parts y m' j) as [-> _].
    rewrite Hy', Hmpback.
    replace ((yoe + era * 400) / 400) with era
      by (apply (Z.div_unique _ 400 era yoe); lia).
    replace (yoe + era * 400 - era * 400) with yoe by lia.
    lia.
  - destruct (Z.eq_dec m' 2) as [Hfeb|Hne].
    + assert (mp = 11) as Hmp11 by (rewrite <- Hmpback, Hfeb; reflexivity).
      rewrite Hfeb in *. simpl in Hy'.
      destruct (february_length y era yoe Hy' Hyoe) as [Hlen Hlen399].
      unfold j. rewrite Hmp11. change ((153 * 11 + 2) / 5) with 337.
      destruct (Z.eq_dec yoe 399) as [H399|Hn399].
      * rewrite (Hlen399 H399). lia.
      * specialize (Hlen ltac:(lia)). specialize (Hhigh ltac:(lia)).
        unfold doy. lia.
    + pose proof (month_length y m' Hm' Hne) as Hlen.
      rewrite Hmpback in Hlen. unfold j. lia.
Qed.

Lemma msPerDay_pos : 0 < msPerDay.
Proof. reflexivity. Qed.

Lemma day_shift (t k : Z) :
  Calendar.day (t + k * msPerDay) = Calendar.day t + k /\
  Calendar.timeWithinDay (t + k * msPerDay) = Calendar.timeWithinDay t.
Proof.
  unfold Calendar.day, Calendar.timeWithinDay. pose proof msPerDay_pos.
  split; [apply Z.div_add; lia|apply Z_mod_plus_full].
Qed.

Lemma getDay_shift (t k : Z) :
  getDay (t + k * msPerDay) = (getDay t + k) mod 7.
Proof.
  unfold getDay. pose proof msPerDay_pos.
  rewrite Z.div_add by lia. rewrite Zplus_mod_idemp_l. f_equal. lia.
Qed.

Lemma date_fields (t : Date) :
  exists y m d,
    Calendar.civilFromDays (Calendar.day t) = (y, m, d) /\
    Calendar.getFullYear t = y /\ Calendar.getMonth t = m - 1 /\
    Calendar.getDate t = d.
Proof.
  unfold Calendar.getFullYear, Calendar.getMonth, Calendar.getDate.
  destruct (Calendar.civilFromDays (Calendar.day t)) as [[y m] d].
  now exists y, m, d.
Qed.

Lemma makeDay_in_year (y mo dt : Z) :
  0 <= mo <= 11 ->
  Calendar.makeDay y mo dt = Calendar.daysFromCivil y (mo + 1) 1 + dt - 1.
Proof.
  intros Hmo. unfold Calendar.makeDay. cbv zeta.
  rewrite Z.div_small, Z.mod_small by lia. now rewrite Z.add_0_r.
Qed.

(** [setDate] moves a date by whole days: to the day of the month asked
    for, counted from the day of the month it has, the time of the day
    kept. *)
Lemma setDate_shift (t dt : Z) :
  Calendar.setDate t dt = t + (dt - Calendar.getDate t) * msPerDay.
Proof.
  destruct (date_fields t) as [y [m [d [Hc [Hy [Hm Hd]]]]]].
  destruct (civil_roundtrip _ _ _ _ Hc) as [Hrt [Hmr Hdr]].
  unfold Calendar.setDate, Calendar.makeDate. rewrite Hy, Hm, Hd.
  rewrite makeDay_in_year by lia.
  replace (m - 1 + 1) with m by lia.
  rewrite (daysFromCivil_linear y m d) in Hrt.
  pose proof (Z.div_mod t msPerDay ltac:(pose proof msPerDay_pos; lia)) as Hdm.
  unfold Calendar.day in Hrt. unfold Calendar.timeWithinDay.
  nia.
Qed.

Lemma setHoursZero_day (t : Date) :
  setHoursZero t = Calendar.day t * msPerDay.
Proof. reflexivity. Qed.

Lemma day_of_midnight (n : Z) : Calendar.day (n * msPerDay) = n.
Proof.
  unfold Calendar.day. apply Z.div_mul. pose proof msPerDay_pos. lia.
Qed.

Lemma first_of_month (y m : Z) :
  1 <= m <= 12 ->
  Calendar.civilFromDays (Calendar.daysFromCivil y m 1) = (y, m, 1).
Proof.
  intros Hm. destruct (month_facts y m Hm) as [Hdays _].
  pose proof (daysInMonth_range y m) as Hlen.
  pose proof (Hdays 1 ltac:(lia)) as H1.
  replace (Calendar.daysFromCivil y m 1 + 1 - 1)
    with (Calendar.daysFromCivil y m 1) in H1 by lia.
  exact H1.
Qed.

Lemma last_of_month (y m : Z) :
  1 <= m <= 12 ->
  Calendar.civilFromDays
    (Calendar.daysFromCivil y m 1 + Calendar.daysInMonth y m - 1) =
  (y, m, Calendar.daysInMonth y m).
Proof.
  intros Hm. destruct (month_facts y m Hm) as [Hdays _].
  pose proof (daysInMonth_range y m) as Hlen.
  apply Hdays. lia.
Qed.

Lemma next_month_start (y m : Z) :
  1 <= m <= 12 ->
  Calendar.daysFromCivil (fst (Calendar.nextMonth y m))
                         (snd (Calendar.nextMonth y m)) 1 =
  Calendar.daysFromCivil y m 1 + Calendar.daysInMonth y m /\
  1 <= snd (Calendar.nextMonth y m) <= 12.
Proof.
  intros Hm. destruct (month_facts y m Hm) as [_ Hnext].
  unfold Calendar.nextMonth in *.
  destruct (Z.eqb_spec m 12); simpl; split; try exact Hnext; lia.
Qed.

(** The start of the calendar is the midnight of the first day of the
    month of the current date. *)
Lemma calendar_start (c : Date) (y m d : Z) :
  Calendar.civilFromDays (Calendar.day c) = (y, m, d) ->
  setHoursZero (Calendar.setDate c 1) =
  Calendar.daysFromCivil y m 1 * msPerDay /\
  Calendar.civilFromDays (Calendar.daysFromCivil y m 1) = (y, m, 1) /\
  1 <= m <= 12.
Proof.
  intros Hc. destruct (civil_roundtrip _ _ _ _ Hc) as [Hrt [Hmr Hdr]].
  rewrite (daysFromCivil_linear y m d) in Hrt.
  split; [|split; [|assumption]].
  - rewrite setHoursZero_day, setDate_shift.
    destruct (day_shift c (1 - Calendar.getDate c)) as [-> _].
    unfold Calendar.getDate. rewrite Hc. f_equal. lia.
  - apply first_of_month. exact Hmr.
Qed.

Lemma fields_of_midnight (n y m d : Z) :
  Calendar.civilFromDays n = (y, m, d) ->
  Calendar.getFullYear (n * msPerDay) = y /\
  Calendar.getMonth (n * msPerDay) = m - 1 /\
  Calendar.getDate (n * msPerDay) = d /\
  Calendar.timeWithinDay (n * msPerDay) = 0.
Proof.
  intros Hc.
  unfold Calendar.getFullYear, Calendar.getMonth, Calendar.getDate,
    Calendar.timeWithinDay.
  rewrite day_of_midnight, Hc. repeat split.
  apply Z_mod_mult.
Qed.

(** The last day of the month, as [generateCalendarDays] computes it, has
    the length of the month as its day of the month. *)
Lemma calendar_end (y m : Z) :
  1 <= m <= 12 ->
  Calendar.getDate
    (Calendar.setDate
       (Calendar.setMonth (Calendar.daysFromCivil y m 1 * msPerDay)
          (Calendar.getMonth (Calendar.daysFromCivil y m 1 * msPerDay) + 1))
       0) = Calendar.daysInMonth y m.
Proof.
  intros Hm.
  destruct (fields_of_midnight _ _ _ _ (first_of_month y m Hm))
    as [Hy [Hmo [Hd Ht]]].
  destruct (next_month_start y m Hm) as [Hnext Hmn].
  assert (Calendar.setMonth (Calendar.daysFromCivil y m 1 * msPerDay)
            (Calendar.getMonth (Calendar.daysFromCivil y m 1 * msPerDay) + 1)
          = (Calendar.daysFromCivil y m 1 + Calendar.daysInMonth y m)
            * msPerDay) as Hend1.
  { unfold Calendar.setMonth, Calendar.makeDate. rewrite Hy, Hmo, Hd, Ht.
    replace (m - 1 + 1) with m by lia.
    rewrite <- Hnext. unfold Calendar.makeDay, Calendar.nextMonth.
    destruct (Z.eqb_spec m 12) as [Heq|Hne].
    - rewrite Heq. change (12 / 12) with 1. change (12 mod 12 + 1) with 1.
      simpl fst. simpl snd. lia.
    - rewrite Z.div_small, Z.mod_small by lia. simpl fst. simpl snd.
      replace (y + 0) with y by lia. lia. }
  rewrite Hend1, setDate_shift.
  pose proof (first_of_month (fst (Calendar.nextMonth y m))
                             (snd (Calendar.nextMonth y m)) Hmn) as Hc1.
  rewrite Hnext in Hc1.
  destruct (fields_of_midnight _ _ _ _ Hc1) as [_ [_ [Hd1 _]]].
  rewrite Hd1.
  replace ((Calendar.daysFromCivil y m 1 + Calendar.daysInMonth y m)
           * msPerDay + (0 - 1) * msPerDay)
    with ((Calendar.daysFromCivil y m 1 + Calendar.daysInMonth y m - 1)
          * msPerDay) by lia.
  destruct (fields_of_midnight _ _ _ _ (last_of_month y m Hm))
    as [_ [_ [Hdl _]]].
  exact Hdl.
Qed.

Lemma calendar_cells (c : Date) (y m d : Z) :
  Calendar.civilFromDays (Calendar.day c) = (y, m, d) ->
  Calendar.generateCalendarDays c =
  map (fun i =>
         {| Calendar.date :=
              (Calendar.daysFromCivil y m 1
               - (getDay (Calendar.daysFromCivil y m 1 * msPerDay)
                  - Z.of_nat i)) * msPerDay;
            Calendar.isCurrentMonth := false |})
      (seq 0 (Z.to_nat (getDay (Calendar.daysFromCivil y m 1 * msPerDay))))
  ++
  map (fun i =>
         {| Calendar.date :=
              (Calendar.daysFromCivil y m 1 + Z.of_nat i - 1) * msPerDay;
            Calendar.isCurrentMonth := true |})
      (seq 1 (Z.to_nat (Calendar.daysInMonth y m))).
Proof.
  intros Hc. destruct (calendar_start c y m d Hc) as [Hstart [Hc0 Hm]].
  destruct (fields_of_midnight _ _ _ _ Hc0) as [_ [_ [Hd0 _]]].
  unfold Calendar.generateCalendarDays. cbv zeta.
  rewrite Hstart, calendar_end by exact Hm.
  f_equal; apply map_ext; intros i; f_equal;
    rewrite setDate_shift, Hd0; lia.
Qed.

Lemma nth_error_seq_from (start n k : nat) :
  nth_error (seq start n) k =
  if Nat.ltb k n then Some (start + k)%nat else None.
Proof.
  revert start k. induction n as [|n IH]; intros start k; simpl.
  - now destruct k.
  - destruct k as [|k]; simpl; [now rewrite Nat.add_0_r|].
    rewrite IH. change (Nat.ltb (S k) (S n)) with (Nat.ltb k n).
    destruct (Nat.ltb k n); [f_equal; lia|reflexivity].
Qed.

(** The cells of the calendar follow the days without gap from a Sunday:
    cell [i] is the midnight [i] days after the Sunday on or before the
    first day of the month of the current date, so it falls on weekday
    [i mod 7] (the cells fill a grid of seven columns, Sunday first), and it
    is marked as of the current month exactly from the first of the month
    on. *)
Theorem calendar_grid_follows_the_week (c : Date) (i : nat)
    (cd : Calendar.CalendarDay) :
  nth_error (Calendar.generateCalendarDays c) i = Some cd ->
  Calendar.date cd =
  setHoursZero (Calendar.setDate c 1)
  + (Z.of_nat i - getDay (setHoursZero (Calendar.setDate c 1))) * msPerDay /\
  getDay (Calendar.date cd) = Z.of_nat i mod 7 /\
  Calendar.timeWithinDay (Calendar.date cd) = 0 /\
  Calendar.isCurrentMonth cd =
  (getDay (setHoursZero (Calendar.setDate c 1)) <=? Z.of_nat i).
Proof.
  destruct (date_fields c) as [y [m [d [Hc _]]]].
  rewrite (calendar_cells c y m d Hc).
  destruct (calendar_start c y m d Hc) as [-> _].
  set (z0 := Calendar.daysFromCivil y m 1).
  pose proof (getDay_range (z0 * msPerDay)) as Hfd.
  set (fd := getDay (z0 * msPerDay)) in *.
  intros Hnth.
  assert (Calendar.date cd = z0 * msPerDay + (Z.of_nat i - fd) * msPerDay /\
          Calendar.isCurrentMonth cd = (fd <=? Z.of_nat i)) as [Hdate Hcur].
  { destruct (Nat.lt_ge_cases i (Z.to_nat fd)) as [Hlt|Hge].
    - rewrite nth_error_app1 in Hnth by (now rewrite length_map, length_seq).
      rewrite nth_error_map, nth_error_seq_from in Hnth.
      destruct (Nat.ltb_spec i (Z.to_nat fd)); [|lia].
      simpl in Hnth. inversion Hnth. simpl.
      split; [lia|]. destruct (Z.leb_spec fd (Z.of_nat i)); [lia|reflexivity].
    - rewrite nth_error_app2 in Hnth by (now rewrite length_map, length_seq).
      rewrite length_map, length_seq in Hnth.
      rewrite nth_error_map, nth_error_seq_from in Hnth.
      destruct (Nat.ltb (i - Z.to_nat fd)
                        (Z.to_nat (Calendar.daysInMonth y m)));
        [|discriminate].
      cbn [option_map] in Hnth. inversion Hnth.
      cbn [Calendar.date Calendar.isCurrentMonth].
      split; [|destruct (Z.leb_spec fd (Z.of_nat i)); [reflexivity|lia]].
      rewrite <- Z.mul_add_distr_r. f_equal. lia. }
  split; [exact Hdate|]. split; [|split; [|exact Hcur]].
  - rewrite Hdate, getDay_shift. fold fd. f_equal. lia.
  - rewrite Hdate.
    replace (z0 * msPerDay + (Z.of_nat i - fd) * msPerDay)
      with ((z0 + Z.of_nat i - fd) * msPerDay) by lia.
    unfold Calendar.timeWithinDay. apply Z_mod_mult.
Qed.

Lemma filter_current_false (g : nat -> Date) (l : list nat) :
  filter Calendar.isCurrentMonth
    (map (fun i => {| Calendar.date := g i;
                      Calendar.isCurrentMonth := false |}) l) = [].
Proof. induction l as [|x l IH]; simpl; [reflexivity|exact IH]. Qed.

Lemma filter_current_true (g : nat -> Date) (l : list nat) :
  filter Calendar.isCurrentMonth
    (map (fun i => {| Calendar.date := g i;
                      Calendar.isCurrentMonth := true |}) l) =
  map (fun i => {| Calendar.date := g i;
                   Calendar.isCurrentMonth := true |}) l.
Proof. induction l as [|x l IH]; simpl; [reflexivity|now rewrite IH]. Qed.

(** The cells marked as of the current month are the days of the month of
    the current date, from the first to the last day of the month by the
    Gregorian calendar, each once and in order; before them come at most six
    cells, so the calendar has from 28 to 37 cells. *)
Theorem calendar_shows_the_days_of_the_month (c : Date) :
  map (fun cd => Calendar.civilFromDays (Calendar.day (Calendar.date cd)))
      (filter Calendar.isCurrentMonth (Calendar.generateCalendarDays c)) =
  map (fun j => (Calendar.getFullYear c, Calendar.getMonth c + 1, Z.of_nat j))
      (seq 1 (Z.to_nat (Calendar.daysInMonth (Calendar.getFullYear c)
                                             (Calendar.getMonth c + 1)))) /\
  List.length (Calendar.generateCalendarDays c) =
  (Z.to_nat (getDay (setHoursZero (Calendar.setDate c 1)))
   + Z.to_nat (Calendar.daysInMonth (Calendar.getFullYear c)
                                    (Calendar.getMonth c + 1)))%nat /\
  (28 <= List.length (Calendar.generateCalendarDays c) <= 37)%nat.
Proof.
  destruct (date_fields c) as [y [m [d [Hc [Hy [Hmo _]]]]]].
  rewrite Hy, Hmo. replace (m - 1 + 1) with m by lia.
  rewrite (calendar_cells c y m d Hc).
  destruct (calendar_start c y m d Hc) as [-> [_ Hm]].
  pose proof (getDay_range (Calendar.daysFromCivil y m 1 * msPerDay)) as Hfd.
  pose proof (daysInMonth_range y m) as Hlen.
  split; [|split].
  - rewrite filter_app, filter_current_false, filter_current_true.
    simpl app. rewrite map_map. apply map_ext_in. intros j Hj.
    apply in_seq in Hj. simpl Calendar.date. rewrite day_of_midnight.
    destruct (month_facts y m Hm) as [Hdays _]. apply Hdays. lia.
  - now rewrite length_app, !length_map, !length_seq.
  - rewrite length_app, !length_map, !length_seq. lia.
Qed.

Lemma navigateMonth_day (c : Date) (direction y m d : Z) :
  Calendar.civilFromDays (Calendar.day c) = (y, m, d) ->
  Calendar.day (Calendar.navigateMonth c direction) =
  Calendar.daysFromCivil (y + (m - 1 + direction) / 12)
                         ((m - 1 + direction) mod 12 + 1) 1 + d - 1 /\
  Calendar.timeWithinDay (Calendar.navigateMonth c direction) =
  Calendar.timeWithinDay c.
Proof.
  intros Hc.
  pose proof (Z.mod_pos_bound c msPerDay msPerDay_pos) as Ht.
  assert (Calendar.navigateMonth c direction =
          (Calendar.daysFromCivil (y + (m - 1 + direction) / 12)
                                  ((m - 1 + direction) mod 12 + 1) 1 + d - 1)
          * msPerDay + Calendar.timeWithinDay c) as Hnav.
  { unfold Calendar.navigateMonth, Calendar.setMonth, Calendar.makeDate,
      Calendar.makeDay, Calendar.getFullYear, Calendar.getMonth,
      Calendar.getDate. now rewrite Hc. }
  rewrite Hnav. unfold Calendar.day, Calendar.timeWithinDay. split.
  - rewrite Z.add_comm, Z.div_add by (pose proof msPerDay_pos; lia).
    rewrite Z.div_small by exact Ht. lia.
  - rewrite Z.add_comm, Z_mod_plus_full. apply Z.mod_mod.
    pose proof msPerDay_pos. lia.
Qed.

(** [navigateMonth] keeps the day of the month and the time of the day and
    moves the month by the direction, carrying into the year, when the day
    of the month is at most 28. *)
Theorem navigateMonth_keeps_the_day (c : Date) (direction : Z) :
  Calendar.getDate c <= 28 ->
  Calendar.getFullYear (Calendar.navigateMonth c direction) =
  Calendar.getFullYear c + (Calendar.getMonth c + direction) / 12 /\
  Calendar.getMonth (Calendar.navigateMonth c direction) =
  (Calendar.getMonth c + direction) mod 12 /\
  Calendar.getDate (Calendar.navigateMonth c direction) = Calendar.getDate c /\
  Calendar.timeWithinDay (Calendar.navigateMonth c direction) =
  Calendar.timeWithinDay c.
Proof.
  intros Hd28.
  destruct (date_fields c) as [y [m [d [Hc [Hy [Hmo Hd]]]]]].
  destruct (civil_roundtrip _ _ _ _ Hc) as [_ [Hmr Hdr]].
  destruct (navigateMonth_day c direction y m d Hc) as [Hday Htime].
  rewrite Hy, Hmo, Hd in *.
  pose proof (Z.mod_pos_bound (m - 1 + direction) 12 ltac:(lia)) as Hmn.
  assert (Calendar.civilFromDays
            (Calendar.day (Calendar.navigateMonth c direction)) =
          (y + (m - 1 + direction) / 12, (m - 1 + direction) mod 12 + 1, d))
    as Hciv.
  { rewrite Hday.
    destruct (month_facts (y + (m - 1 + direction) / 12)
                          ((m - 1 + direction) mod 12 + 1) ltac:(lia))
      as [Hdays _].
    pose proof (daysInMonth_range (y + (m - 1 + direction) / 12)
                                  ((m - 1 + direction) mod 12 + 1)).
    apply Hdays. lia. }
  unfold Calendar.getFullYear, Calendar.getMonth, Calendar.getDate.
  rewrite Hciv. split; [reflexivity|]. split; [lia|].
  split; [reflexivity|exact Htime].
Qed.

(** When the day of the month does not exist in the month asked for (the
    29th to the 31st and a shorter month), [navigateMonth] lands in the
    month after the one asked for, on the day that remains after the length
    of the month asked for: the calendar skips the shorter month. *)
Theorem navigateMonth_skips_a_short_month (c : Date) (direction : Z) :
  let ym := Calendar.getFullYear c + (Calendar.getMonth c + direction) / 12 in
  let mn := (Calendar.getMonth c + direction) mod 12 + 1 in
  Calendar.daysInMonth ym mn < Calendar.getDate c ->
  Calendar.civilFromDays (Calendar.day (Calendar.navigateMonth c direction)) =
  (fst (Calendar.nextMonth ym mn), snd (Calendar.nextMonth ym mn),
   Calendar.getDate c - Calendar.daysInMonth ym mn).
Proof.
  intros ym mn Hshort.
  destruct (date_fields c) as [y [m [d [Hc [Hy [Hmo Hd]]]]]].
  destruct (civil_roundtrip _ _ _ _ Hc) as [_ [Hmr Hdr]].
  destruct (navigateMonth_day c direction y m d Hc) as [Hday _].
  unfold ym, mn in *. clear ym mn. rewrite Hy, Hmo, Hd in *.
  pose proof (Z.mod_pos_bound (m - 1 + direction) 12 ltac:(lia)) as Hmn.
  pose proof (daysInMonth_range y m) as Hlen0.
  pose proof (daysInMonth_range (y + (m - 1 + direction) / 12)
                                ((m - 1 + direction) mod 12 + 1)) as Hlen.
  destruct (next_month_start (y + (m - 1 + direction) / 12)
                             ((m - 1 + direction) mod 12 + 1) ltac:(lia))
    as [Hnext Hnm].
  rewrite Hday.
  destruct (Calendar.nextMonth (y + (m - 1 + direction) / 12)
                               ((m - 1 + direction) mod 12 + 1))
    as [yn mn]. simpl fst in *. simpl snd in *.
  replace (Calendar.daysFromCivil (y + (m - 1 + direction) / 12)
                                  ((m - 1 + direction) mod 12 + 1) 1 + d - 1)
    with (Calendar.daysFromCivil yn mn 1
          + (d - Calendar.daysInMonth (y + (m - 1 + direction) / 12)
                                      ((m - 1 + direction) mod 12 + 1)) - 1)
    by lia.
  destruct (month_facts yn mn Hnm) as [Hdays _].
  pose proof (daysInMonth_range yn mn).
  apply Hdays. lia.
Qed.

Lemma calendar_grid_follows_the_week_witness :
  nth_error (Calendar.generateCalendarDays (19000 * msPerDay + 5000)) 6 =
  Some {| Calendar.date := 18993 * msPerDay;
          Calendar.isCurrentMonth := true |} /\
  getDay (18993 * msPerDay) = 6.
Proof.
  assert (nth_error (Calendar.generateCalendarDays (19000 * msPerDay + 5000))
                    6 =
          Some {| Calendar.date := 18993 * msPerDay;
                  Calendar.isCurrentMonth := true |}) as Hnth
    by (vm_compute; reflexivity).
  split; [exact Hnth|].
  exact (proj1 (proj2 (calendar_grid_follows_the_week
                         (19000 * msPerDay + 5000) 6 _ Hnth))).
Defined.

Lemma navigateMonth_keeps_the_day_witness :
  Calendar.getDate (19000 * msPerDay) <= 28 /\
  Calendar.getMonth (Calendar.navigateMonth (19000 * msPerDay) (-1)) = 11 /\
  Calendar.getFullYear (Calendar.navigateMonth (19000 * msPerDay) (-1))
  = 2021.
Proof.
  assert (Calendar.getDate (19000 * msPerDay) <= 28) as Hd
    by (vm_compute; congruence).
  split; [exact Hd|].
  destruct (navigateMonth_keeps_the_day (19000 * msPerDay) (-1) Hd)
    as [Hy [Hm _]].
  split; [exact Hm|exact Hy].
Defined.

Lemma navigateMonth_skips_a_short_month_witness :
  Calendar.daysInMonth 2023 2
  < Calendar.getDate (Calendar.daysFromCivil 2023 1 31 * msPerDay) /\
  Calendar.civilFromDays
    (Calendar.day
       (Calendar.navigateMonth
          (Calendar.daysFromCivil 2023 1 31 * msPerDay) 1)) = (2023, 3, 3).
Proof.
  assert (Calendar.daysInMonth 2023 2
          < Calendar.getDate (Calendar.daysFromCivil 2023 1 31 * msPerDay))
    as Hshort by reflexivity.
  split; [exact Hshort|].
  exact (navigateMonth_skips_a_short_month
           (Calendar.daysFromCivil 2023 1 31 * msPerDay) 1 Hshort).
Defined.
